(** * A to-do HTTP service over a document store: model and properties

    The development embeds the two source files of the service,

    - [db.js]     (the connection manager: [connectDB], [getDB]), and
    - [server.js] (the body reader [parseBody] and the request listener),

    as functions over an explicit process state, and proves properties of
    the embedded functions.

    What the source calls but does not contain is treated as follows.

    - Runtime built-ins whose results depend on the engine ([JSON.parse],
      [JSON.stringify], the two URL parsers, the [ObjectId] constructor) are
      fields of the class [Platform]; every theorem holds for every
      platform.
    - The document store is modelled after the documented behaviour of
      [insertOne], [find], [findOneAndUpdate] with [$set] and [deleteOne]
      on a collection whose [_id] index is unique.  The store is reliable:
      it has no size limits and never drops the connection. *)

From Stdlib Require Import String Ascii ZArith NArith List Bool Lia DecimalString.
From stdpp Require Import base option gmap strings list fin_maps.

#[local] Set Warnings "-register-all".
Local Open Scope string_scope.
Local Open Scope Z_scope.

(** ** JavaScript values *)

Module Js.

(** A number is an IEEE double.  Only its class matters here: a finite
    value is [(-1)^negative * mantissa * 2^exponent], so both zeros are
    [Finite _ 0 _]. *)
Inductive number : Type :=
  | Finite (negative : bool) (mantissa : N) (exponent : Z)
  | Infinity (negative : bool)
  | NaN.

Definition ObjectId : Type := N.

(** The values that occur in request bodies and in stored documents.
    [JSON.parse] yields the first six forms; [VDate] and [VObjectId] are
    produced by the service and by the driver. *)
Inductive val : Type :=
  | VNull
  | VBool (b : bool)
  | VNumber (n : number)
  | VString (s : string)
  | VArray (elems : list val)
  | VObject (props : list (string * val))
  | VDate (ms : Z)
  | VObjectId (oid : ObjectId).

(** Own properties of an object, in order. *)
Definition object : Type := list (string * val).

Definition number_truthy (n : number) : bool :=
  match n with
  | Finite _ m _ => negb (N.eqb m 0)
  | Infinity _ => true
  | NaN => false
  end.

(** [ToBoolean]. *)
Definition truthy (v : val) : bool :=
  match v with
  | VNull => false
  | VBool b => b
  | VNumber n => number_truthy n
  | VString s => negb (String.eqb s "")
  | VArray _ | VObject _ | VDate _ | VObjectId _ => true
  end.

(** [ToBoolean] on a string that may be [null] ([searchParams.get]) . *)
Definition string_truthy (s : option string) : bool :=
  match s with
  | None => false
  | Some s => negb (String.eqb s "")
  end.

(** [o[k]]: the first binding of [k]. *)
Fixpoint get (o : object) (k : string) : option val :=
  match o with
  | [] => None
  | (k', v) :: rest => if String.eqb k' k then Some v else get rest k
  end.

(** [o[k] = v]: overwrite in place, or append a new property. *)
Fixpoint set (o : object) (k : string) (v : val) : object :=
  match o with
  | [] => [(k, v)]
  | (k', v') :: rest =>
      if String.eqb k' k then (k', v) :: rest else (k', v') :: set rest k v
  end.

Definition keys (o : object) : list string := map fst o.

(** [a || b] where [a] may be [undefined]. *)
Definition or_else (a : option val) (b : val) : val :=
  match a with
  | Some v => if truthy v then v else b
  | None => b
  end.

(** [s || t] on strings. *)
Definition string_or (s t : string) : string :=
  if String.eqb s "" then t else s.

Definition index_key (i : nat) : string :=
  NilEmpty.string_of_uint (Nat.to_uint i).

Fixpoint indexed {A : Type} (f : A -> val) (i : nat) (l : list A) : object :=
  match l with
  | [] => []
  | x :: rest => (index_key i, f x) :: indexed f (S i) rest
  end.

Definition chars (s : string) : list ascii := list_ascii_of_string s.

(** Own enumerable properties, as the spread [{ ...v }] copies them: the
    properties of an object, the elements of an array under their
    indices, the characters of a string under their indices, nothing for
    [null] and the other primitives. *)
Definition own_props (v : val) : object :=
  match v with
  | VObject props => props
  | VArray elems => indexed (fun x => x) 0 elems
  | VString s => indexed (fun c => VString (String c EmptyString)) 0 (chars s)
  | _ => []
  end.

(** [{ ...v }]: a fresh object that receives the properties one by one, so
    a later binding of a name replaces an earlier one. *)
Definition spread (v : val) : object :=
  fold_left (fun o kv => set o (fst kv) (snd kv)) (own_props v) [].

(** An exception value: [name] and [message] of an [Error]. *)
Record Exn : Type := mkExn { exn_name : string; message : string }.

Definition Error (msg : string) : Exn := mkExn "Error" msg.
Definition TypeError (msg : string) : Exn := mkExn "TypeError" msg.

(** How an evaluation completes. *)
Inductive Completion (A : Type) : Type :=
  | Normal (a : A)
  | Throw (e : Exn).
Arguments Normal {A} a.
Arguments Throw {A} e.

End Js.
Export Js.

(** ** The process, its surroundings, and effects *)

(** A database handle, as [client.db(name)] returns it. *)
Record Db : Type := mkDb { databaseName : string }.

(** A collection handle, as [db.collection(name)] returns it. *)
Record Collection : Type := mkCollection { dbName : string; collectionName : string }.

(** What [res.writeHead] and [res.end] have written. *)
Record ServerResponse : Type := mkResponse {
  head : option (nat * list (string * string));
  payload : option string
}.

Inductive LogEntry : Type :=
  | Log (text : string)
  | LogError (text : string) (err : Exn).

(** The state the two files act on.

    - [db] is the module variable [let db] of [db.js] ([None] is
      [undefined]);
    - [connect_result] is how [client.connect()] completes, decided by the
      network;
    - [todos] is the content of the collection [todo_api.todos], one
      document per [_id]; a document is stored without its [_id] field,
      which is the key;
    - [next_oid] is the identifier the driver generates next;
    - [clock] is the wall clock in milliseconds;
    - [console] is what was logged, latest first;
    - [res] is the response of the request being served. *)
Record World : Type := mkWorld {
  db : option Db;
  connect_result : Completion unit;
  todos : gmap ObjectId object;
  next_oid : ObjectId;
  clock : Z;
  console : list LogEntry;
  res : ServerResponse
}.

Definition with_db (h : option Db) (w : World) : World :=
  mkWorld h (connect_result w) (todos w) (next_oid w) (clock w) (console w) (res w).
Definition with_todos (c : gmap ObjectId object) (w : World) : World :=
  mkWorld (db w) (connect_result w) c (next_oid w) (clock w) (console w) (res w).
Definition with_next_oid (i : ObjectId) (w : World) : World :=
  mkWorld (db w) (connect_result w) (todos w) i (clock w) (console w) (res w).
Definition with_clock (t : Z) (w : World) : World :=
  mkWorld (db w) (connect_result w) (todos w) (next_oid w) t (console w) (res w).
Definition with_console (l : list LogEntry) (w : World) : World :=
  mkWorld (db w) (connect_result w) (todos w) (next_oid w) (clock w) l (res w).
Definition with_res (r : ServerResponse) (w : World) : World :=
  mkWorld (db w) (connect_result w) (todos w) (next_oid w) (clock w) (console w) r.

(** A computation runs on the world and completes normally or by
    throwing; what it did to the world before throwing stays done. *)
Definition M (A : Type) : Type := World -> Completion A * World.

#[export] Instance M_ret : MRet M := fun A (a : A) w => (Normal a, w).

#[export] Instance M_bind : MBind M := fun A B (f : A -> M B) (m : M A) w =>
  match m w with
  | (Normal a, w') => f a w'
  | (Throw e, w') => (Throw e, w')
  end.

(** [throw e]. *)
Definition throw {A : Type} (e : Exn) : M A := fun w => (Throw e, w).

(** [try { m } catch (err) { h err }]. *)
Definition try_catch {A : Type} (m : M A) (h : Exn -> M A) : M A := fun w =>
  match m w with
  | (Normal a, w') => (Normal a, w')
  | (Throw e, w') => h e w'
  end.

(** Awaiting a settled promise: its value, or its rejection rethrown. *)
Definition await {A : Type} (c : Completion A) : M A := fun w => (c, w).

Definition gets {A : Type} (f : World -> A) : M A := fun w => (Normal (f w), w).
Definition modify (f : World -> World) : M unit := fun w => (Normal tt, f w).

Definition console_log (text : string) : M unit :=
  modify (fun w => with_console (Log text :: console w) w).
Definition console_error (text : string) (err : Exn) : M unit :=
  modify (fun w => with_console (LogError text err :: console w) w).

(** [new Date()]. *)
Definition Date_new : M val := gets (fun w => VDate (clock w)).

(** ** What the runtime and the libraries provide *)

(** A field name that [$set] takes as the name of a top-level field: not
    empty, no [.] (a path), no leading [$] (an operator), no NUL. *)
Definition top_level_field (k : string) : bool :=
  match chars k with
  | [] => false
  | c :: _ =>
      negb (Ascii.eqb c "$")
      && forallb (fun c => negb (Ascii.eqb c ".") && negb (Ascii.eqb c "000")) (chars k)
  end.

Class Platform : Type := {
  (** [JSON.parse(text)] *)
  JSON_parse : string -> Completion val;
  (** [JSON.stringify(v)] *)
  JSON_stringify : val -> string;
  (** [parse(url, true).pathname] of the legacy URL module; [None] is
      [null]. *)
  url_pathname : string -> option string;
  (** [new URL(url, base).searchParams], as its list of pairs; the
      constructor throws on an invalid URL. *)
  URL_searchParams : string -> string -> Completion (list (string * string));
  (** [new ObjectId(id)] on a string; throws unless [id] denotes an
      identifier. *)
  ObjectId_new : string -> Completion ObjectId;
  (** What [$set] does to a document for a name that is not a top-level
      field name (a dotted path, an operator name). *)
  set_path : object -> string -> val -> Completion object;
  (** The text of the empty object parses as the empty object. *)
  JSON_parse_empty_object : JSON_parse "{}" = Normal (VObject [])
}.

(** ** The document store

    The operations the listener calls, after the documentation of the
    MongoDB driver and server: [findOneAndUpdate] resolves to a result
    whose [value] is the document (the form the listener reads), an update
    never inserts unless asked to upsert, and [$set] with no assignment
    changes nothing. *)

Module Mongo.

Definition MongoServerError (msg : string) : Exn := mkExn "MongoServerError" msg.

(** A stored document as the driver returns it, [_id] first. *)
Definition document (oid : ObjectId) (fields : object) : object :=
  ("_id", VObjectId oid) :: fields.

(** [collection.find().toArray()]. *)
Definition find_toArray (c : Collection) : M (list object) :=
  gets (fun w => map (fun kv => document (fst kv) (snd kv)) (map_to_list (todos w))).

(** The acknowledgement of [insertOne]. *)
Definition InsertOneResult (oid : ObjectId) : val :=
  VObject [("acknowledged", VBool true); ("insertedId", VObjectId oid)].

(** [collection.insertOne(doc)] for a [doc] without [_id]: the driver
    generates the identifier; the server refuses an identifier that is
    taken. *)
Definition insertOne (c : Collection) (doc : object) : M val := fun w =>
  let oid := next_oid w in
  let w1 := with_next_oid (N.succ oid) w in
  match todos w !! oid with
  | Some _ => (Throw (MongoServerError "E11000 duplicate key error"), w1)
  | None => (Normal (InsertOneResult oid), with_todos (<[oid := doc]> (todos w)) w1)
  end.

Definition immutable_id : Exn :=
  MongoServerError
    "Performing an update on the path '_id' would modify the immutable field '_id'".

(** One assignment of [$set] on the document stored under [oid]. *)
Definition set_field `{Platform} (oid : ObjectId) (d : object) (k : string) (v : val)
  : Completion object :=
  if String.eqb k "_id" then
    match v with
    | VObjectId j => if N.eqb j oid then Normal d else Throw immutable_id
    | _ => Throw immutable_id
    end
  else if top_level_field k then Normal (Js.set d k v)
  else set_path d k v.

(** [{ $set: fields }] on the document stored under [oid]: all the
    assignments, or none when one is refused. *)
Fixpoint apply_set `{Platform} (oid : ObjectId) (d : object) (fields : object)
  : Completion object :=
  match fields with
  | [] => Normal d
  | (k, v) :: rest =>
      match set_field oid d k v with
      | Normal d' => apply_set oid d' rest
      | Throw e => Throw e
      end
  end.

(** The result of [findOneAndUpdate]; [value] is the document, [None]
    for [null]. *)
Record ModifyResult : Type := mkModifyResult { value : option object }.

(** [collection.findOneAndUpdate({ _id: oid }, { $set: fields },
    { returnDocument: "after" })]: no upsert, so nothing happens when no
    document matches. *)
Definition findOneAndUpdate `{Platform} (c : Collection) (oid : ObjectId) (fields : object)
  : M ModifyResult := fun w =>
  match todos w !! oid with
  | None => (Normal (mkModifyResult None), w)
  | Some d =>
      match apply_set oid d fields with
      | Normal d' =>
          (Normal (mkModifyResult (Some (document oid d'))),
           with_todos (<[oid := d']> (todos w)) w)
      | Throw e => (Throw e, w)
      end
  end.

(** [collection.deleteOne({ _id: oid })]. *)
Definition deleteOne (c : Collection) (oid : ObjectId) : M unit :=
  modify (fun w => with_todos (delete oid (todos w)) w).

End Mongo.

(** ** [db.js]: the connection manager *)

(** [client.connect()]. *)
Definition client_connect : M unit := fun w => (connect_result w, w).

(** [client.db(name)]. *)
Definition client_db (name : string) : Db := mkDb name.

Definition connectDB : M unit :=
  try_catch
    (_ ← client_connect;
     _ ← modify (with_db (Some (client_db "todo_api")));
     console_log "MongoDB connected")
    (fun err => console_error "DB connection error:" err).

Definition getDB : M (option Db) := gets db.

(** ** [server.js]: the body reader and the request listener *)

(** A piece of the request body and the time that passes before it
    arrives. *)
Record Chunk : Type := mkChunk { delay : N; text : string }.

(** An incoming request: [req.method], [req.url], [req.headers.host]
    ([None] when the header is absent), and the body as it arrives. *)
Record IncomingMessage : Type := mkRequest {
  method : string;
  url : string;
  host : option string;
  chunks : list Chunk
}.

(** [body += chunk.toString()]. *)
Definition on_data (body : string) (chunk : Chunk) : string := body +:+ text chunk.

(** The text accumulated when the stream signals its end. *)
Definition body_text (req : IncomingMessage) : string :=
  fold_left on_data (chunks req) "".

(** The time the body takes to arrive. *)
Definition body_time (req : IncomingMessage) : Z :=
  Z.of_N (fold_left (fun t c => (t + delay c)%N) (chunks req) 0%N).

(** Waiting for the ["end"] event. *)
Definition on_end (req : IncomingMessage) : M string := fun w =>
  (Normal (body_text req), with_clock (clock w + body_time req) w).

Section Server.

Context `{Platform}.

Definition parseBody (req : IncomingMessage) : M val :=
  body ← on_end req;
  await (JSON_parse (string_or body "{}")).

(** [db.collection(name)]; [db] may be [undefined]. *)
Definition db_collection (d : option Db) (name : string) : M Collection :=
  match d with
  | Some h => mret (mkCollection (databaseName h) name)
  | None =>
      throw (TypeError "Cannot read properties of undefined (reading 'collection')")
  end.

Definition json_headers : list (string * string) :=
  [("Content-Type", "application/json")].

(** [res.writeHead(code, headers)]. *)
Definition writeHead (code : nat) (headers : list (string * string)) : M unit :=
  modify (fun w => with_res (mkResponse (Some (code, headers)) (payload (res w))) w).

(** [res.end(text)]. *)
Definition end_ (body : string) : M unit :=
  modify (fun w => with_res (mkResponse (head (res w)) (Some body)) w).

(** [`http://${req.headers.host}`]. *)
Definition base (req : IncomingMessage) : string :=
  "http://" +:+ match host req with Some h => h | None => "undefined" end.

(** [searchParams.get(name)]: the first value under [name], or [null]. *)
Fixpoint searchParams_get (params : list (string * string)) (name : string)
  : option string :=
  match params with
  | [] => None
  | (k, v) :: rest => if String.eqb k name then Some v else searchParams_get rest name
  end.

(** [data.title]: throws on [null]; an object has it or not; an array, a
    string, a number and a boolean have no such property. *)
Definition data_title (data : val) : M (option val) :=
  match data with
  | VNull => throw (TypeError "Cannot read properties of null (reading 'title')")
  | VObject props => mret (Js.get props "title")
  | _ => mret None
  end.

(** [{ error: err.message }]. *)
Definition error_body (err : Exn) : val := VObject [("error", VString (message err))].

(** The [catch] block shared by the three writing routes. *)
Definition bad_request (err : Exn) : M unit :=
  _ ← writeHead 400 json_headers;
  end_ (JSON_stringify (error_body err)).

(** The document [POST /todos] inserts. *)
Definition new_todo (title : option val) (now : val) : object :=
  [("title", or_else title (VString "Untitled"));
   ("completed", VBool false);
   ("createdAt", now)].

(** [pathname === p]. *)
Definition path_is (pathname : option string) (p : string) : bool :=
  match pathname with
  | Some q => String.eqb q p
  | None => false
  end.

Definition get_root : M unit :=
  _ ← writeHead 200 json_headers;
  end_ (JSON_stringify (VObject [("message", VString "Node.js To-Do API running...")])).

Definition get_todos (todos : Collection) : M unit :=
  allTodos ← Mongo.find_toArray todos;
  _ ← writeHead 200 json_headers;
  end_ (JSON_stringify (VArray (map VObject allTodos))).

Definition post_todos (todos : Collection) (req : IncomingMessage) : M unit :=
  try_catch
    (data ← parseBody req;
     title ← data_title data;
     now ← Date_new;
     result ← Mongo.insertOne todos (new_todo title now);
     _ ← writeHead 201 json_headers;
     end_ (JSON_stringify result))
    bad_request.

(** [JSON.stringify(result.value)]. *)
Definition value_json (r : Mongo.ModifyResult) : val :=
  match Mongo.value r with
  | Some d => VObject d
  | None => VNull
  end.

(** [new URL(req.url, base).searchParams.get(name)]. *)
Definition searchParam (req : IncomingMessage) (name : string)
  : Completion (option string) :=
  match URL_searchParams (url req) (base req) with
  | Normal query => Normal (searchParams_get query name)
  | Throw e => Throw e
  end.

(** The [id] query parameter, required by [PUT] and [DELETE]:
    [if (!id) throw new Error("Missing ID")]. *)
Definition query_id (req : IncomingMessage) : M string :=
  id ← await (searchParam req "id");
  match id with
  | Some id => if String.eqb id "" then throw (Error "Missing ID") else mret id
  | None => throw (Error "Missing ID")
  end.

Definition put_todos (todos : Collection) (req : IncomingMessage) : M unit :=
  try_catch
    (id ← query_id req;
     data ← parseBody req;
     oid ← await (ObjectId_new id);
     result ← Mongo.findOneAndUpdate todos oid (spread data);
     _ ← writeHead 200 json_headers;
     end_ (JSON_stringify (value_json result)))
    bad_request.

Definition delete_todos (todos : Collection) (req : IncomingMessage) : M unit :=
  try_catch
    (id ← query_id req;
     oid ← await (ObjectId_new id);
     _ ← Mongo.deleteOne todos oid;
     _ ← writeHead 200 json_headers;
     end_ (JSON_stringify (VObject [("message", VString "Todo deleted")])))
    bad_request.

Definition not_found : M unit :=
  _ ← writeHead 404 json_headers;
  end_ (JSON_stringify (VObject [("error", VString "Route not found")])).

(** The listener passed to [http.createServer]. *)
Definition requestListener (req : IncomingMessage) : M unit :=
  db ← getDB;
  todos ← db_collection db "todos";
  let pathname := url_pathname (url req) in
  if String.eqb (method req) "GET" && path_is pathname "/" then get_root
  else if String.eqb (method req) "GET" && path_is pathname "/todos" then get_todos todos
  else if String.eqb (method req) "POST" && path_is pathname "/todos" then post_todos todos req
  else if String.eqb (method req) "PUT" && path_is pathname "/todos" then put_todos todos req
  else if String.eqb (method req) "DELETE" && path_is pathname "/todos" then delete_todos todos req
  else not_found.

End Server.

(** ** A platform to run the examples on

    A small instance of [Platform]: it reads and writes JSON texts made of
    objects, arrays, strings without escapes, natural numbers and the
    three literals, without white space; it splits a request target at
    [?], [&] and [=] without decoding; an identifier is 24 hexadecimal
    digits; and it refuses paths in [$set]. *)

Module Sample.

Definition dquote : ascii := "034"%char.

Definition is_digit (c : ascii) : bool :=
  (48 <=? nat_of_ascii c)%nat && (nat_of_ascii c <=? 57)%nat.

Definition digit_value (c : ascii) : N := N.of_nat (nat_of_ascii c - 48).

(** The characters up to the closing quote. *)
Fixpoint read_string (cs : list ascii) : option (string * list ascii) :=
  match cs with
  | [] => None
  | c :: rest =>
      if Ascii.eqb c dquote then Some ("", rest)
      else if Ascii.eqb c "\" then None
      else match read_string rest with
           | Some (s, rest') => Some (String c s, rest')
           | None => None
           end
  end.

Fixpoint read_digits (acc : N) (cs : list ascii) : N * list ascii :=
  match cs with
  | c :: rest => if is_digit c then read_digits (10 * acc + digit_value c) rest else (acc, cs)
  | [] => (acc, cs)
  end.

Fixpoint read_value (fuel : nat) (cs : list ascii) : option (val * list ascii) :=
  match fuel with
  | O => None
  | S fuel =>
      match cs with
      | "t" :: "r" :: "u" :: "e" :: rest => Some (VBool true, rest)
      | "f" :: "a" :: "l" :: "s" :: "e" :: rest => Some (VBool false, rest)
      | "n" :: "u" :: "l" :: "l" :: rest => Some (VNull, rest)
      | "[" :: "]" :: rest => Some (VArray [], rest)
      | "[" :: rest =>
          match read_elements fuel rest with
          | Some (l, rest') => Some (VArray l, rest')
          | None => None
          end
      | "{" :: "}" :: rest => Some (VObject [], rest)
      | "{" :: rest =>
          match read_members fuel [] rest with
          | Some (o, rest') => Some (VObject o, rest')
          | None => None
          end
      | c :: rest =>
          if Ascii.eqb c dquote then
            match read_string rest with
            | Some (s, rest') => Some (VString s, rest')
            | None => None
            end
          else if is_digit c then
            let (n, rest') := read_digits 0 cs in Some (VNumber (Finite false n 0), rest')
          else None
      | [] => None
      end
  end%char
with read_elements (fuel : nat) (cs : list ascii) : option (list val * list ascii) :=
  match fuel with
  | O => None
  | S fuel =>
      match read_value fuel cs with
      | Some (v, "," :: rest) =>
          match read_elements fuel rest with
          | Some (l, rest') => Some (v :: l, rest')
          | None => None
          end
      | Some (v, "]" :: rest) => Some ([v], rest)
      | _ => None
      end
  end%char
with read_members (fuel : nat) (acc : object) (cs : list ascii)
  : option (object * list ascii) :=
  match fuel with
  | O => None
  | S fuel =>
      match cs with
      | c :: rest =>
          if Ascii.eqb c dquote then
            match read_string rest with
            | Some (k, ":" :: rest1) =>
                match read_value fuel rest1 with
                | Some (v, "," :: rest2) => read_members fuel (Js.set acc k v) rest2
                | Some (v, "}" :: rest2) => Some (Js.set acc k v, rest2)
                | _ => None
                end
            | _ => None
            end
          else None
      | [] => None
      end
  end%char.

Definition SyntaxError (msg : string) : Exn := mkExn "SyntaxError" msg.

Definition parse (text : string) : Completion val :=
  match read_value (S (String.length text)) (chars text) with
  | Some (v, []) => Normal v
  | _ => Throw (SyntaxError "Unexpected token in JSON")
  end.

Definition quoted (s : string) : string :=
  String dquote (s +:+ String dquote "").

Definition join (parts : list string) : string := String.concat "," parts.

Definition decimal (n : N) : string := NilEmpty.string_of_uint (N.to_uint n).

Definition hex_digit (n : N) : ascii :=
  ascii_of_N (if (n <? 10)%N then 48 + n else 87 + n).

(** The last [digits] hexadecimal digits of [n]. *)
Fixpoint hex (digits : nat) (n : N) (tail : string) : string :=
  match digits with
  | O => tail
  | S digits => hex digits (n / 16) (String (hex_digit (n mod 16)) tail)
  end.

(** An integer prints in decimal and any other number as [null]; a date
    prints as its milliseconds; an identifier as its 24 hexadecimal
    digits, quoted. *)
Fixpoint stringify (v : val) : string :=
  match v with
  | VNull => "null"
  | VBool true => "true"
  | VBool false => "false"
  | VNumber (Finite neg m 0) => (if neg then "-" else "") +:+ decimal m
  | VNumber _ => "null"
  | VString s => quoted s
  | VArray l => "[" +:+ join (map stringify l) +:+ "]"
  | VObject o =>
      "{" +:+ join (map (fun kv : string * val => let (k, x) := kv in quoted k +:+ ":" +:+ stringify x) o)
      +:+ "}"
  | VDate ms => decimal (Z.to_N ms)
  | VObjectId oid => quoted (hex 24 oid "")
  end.

Fixpoint split_at (sep : ascii) (cs : list ascii) : list ascii * option (list ascii) :=
  match cs with
  | [] => ([], None)
  | c :: rest =>
      if Ascii.eqb c sep then ([], Some rest)
      else let (a, b) := split_at sep rest in (c :: a, b)
  end.

Definition str (cs : list ascii) : string := string_of_list_ascii cs.

Definition pathname (url : string) : option string :=
  match chars url with
  | "/"%char :: _ => Some (str (fst (split_at "?" (chars url))))
  | _ => None
  end.

Fixpoint pairs (fuel : nat) (cs : list ascii) : list (string * string) :=
  match fuel with
  | O => []
  | S fuel =>
      let (item, more) := split_at "&" cs in
      let (k, v) := split_at "=" item in
      let here := (str k, str (default ([] : list ascii) v)) in
      match more with
      | Some rest => here :: pairs fuel rest
      | None => [here]
      end
  end.

Definition searchParams (url base : string) : Completion (list (string * string)) :=
  match snd (split_at "?" (chars url)) with
  | Some q => Normal (pairs (S (length q)) q)
  | None => Normal []
  end.

Definition hex_value (c : ascii) : option N :=
  let n := nat_of_ascii c in
  if (48 <=? n)%nat && (n <=? 57)%nat then Some (N.of_nat (n - 48))
  else if (97 <=? n)%nat && (n <=? 102)%nat then Some (N.of_nat (n - 87))
  else if (65 <=? n)%nat && (n <=? 70)%nat then Some (N.of_nat (n - 55))
  else None.

Fixpoint read_hex (acc : N) (cs : list ascii) : option N :=
  match cs with
  | [] => Some acc
  | c :: rest =>
      match hex_value c with
      | Some d => read_hex (16 * acc + d) rest
      | None => None
      end
  end.

Definition BSONError (msg : string) : Exn := mkExn "BSONError" msg.

Definition objectId (id : string) : Completion ObjectId :=
  if (String.length id =? 24)%nat then
    match read_hex 0 (chars id) with
    | Some n => Normal n
    | None => Throw (BSONError "input must be a 24 character hex string")
    end
  else Throw (BSONError "input must be a 24 character hex string").

Definition refuse_path (d : object) (k : string) (v : val) : Completion object :=
  Throw (Mongo.MongoServerError "Cannot create field in element").

#[export] Instance platform : Platform := {|
  JSON_parse := parse;
  JSON_stringify := stringify;
  url_pathname := pathname;
  URL_searchParams := searchParams;
  ObjectId_new := objectId;
  set_path := refuse_path;
  JSON_parse_empty_object := eq_refl
|}.

End Sample.

(** ** The vocabulary of the properties *)

(** The five routes of the service, as (method, path) pairs. *)
Definition routes : list (string * string) :=
  [("GET", "/"); ("GET", "/todos"); ("POST", "/todos"); ("PUT", "/todos");
   ("DELETE", "/todos")].

(** The request is for [/todos] with method [m]. *)
Definition on_route `{Platform} (req : IncomingMessage) (m : string) : Prop :=
  method req = m /\ url_pathname (url req) = Some "/todos".

(** The (method, path) pair of the request is none of the five. *)
Definition off_routes `{Platform} (req : IncomingMessage) : Prop :=
  forall p, url_pathname (url req) = Some p -> ~ In (method req, p) routes.

(** The text handed to [JSON.parse] for this request. *)
Definition parsed_text (req : IncomingMessage) : string :=
  string_or (body_text req) "{}".

(** Every name is the name of a top-level field other than [_id]. *)
Definition plain_fields (o : object) : bool :=
  forallb (fun k => top_level_field k && negb (String.eqb k "_id")) (keys o).

(** The [title] the body supplies: [data.title] where [data] is not
    [null]. *)
Definition own_title (data : val) : option val :=
  match data with
  | VObject props => Js.get props "title"
  | _ => None
  end.

(** The assignments of [fields] made to [d], in order. *)
Definition overwrite (d fields : object) : object :=
  fold_left (fun o kv => Js.set o (fst kv) (snd kv)) fields d.

(** The response written so far is [code] with the JSON text of [v]. *)
Definition responded `{Platform} (w : World) (code : nat) (v : val) : Prop :=
  res w = mkResponse (Some (code, json_headers)) (Some (JSON_stringify v)).

(** The world after the listener has served [req]. *)
Definition served `{Platform} (req : IncomingMessage) (w : World) : World :=
  snd (requestListener req w).

(** [connectDB] called once per given outcome of [client.connect()]. *)
Fixpoint connect_attempts (outcomes : list (Completion unit)) (w : World) : World :=
  match outcomes with
  | [] => w
  | r :: rest =>
      connect_attempts rest
        (snd (connectDB
                (mkWorld (db w) r (todos w) (next_oid w) (clock w) (console w) (res w))))
  end.

Definition failed {A : Type} (c : Completion A) : bool :=
  match c with
  | Normal _ => false
  | Throw _ => true
  end.

(** The process before any call of [connectDB]: [let db;]. *)
Definition fresh_process (w : World) : Prop := db w = None.

(** Two readings of the specification that the listener does not follow,
    stated for comparison. *)

(** "if the body contains a [completed] value, the inserted item carries
    that value". *)
Definition completed_taken_from_body : Prop :=
  forall (P : Platform) (w : World) (req : IncomingMessage) (h : Db)
         (props : object) (v : val),
    db w = Some h ->
    on_route req "POST" ->
    JSON_parse (parsed_text req) = Normal (VObject props) ->
    Js.get props "completed" = Some v ->
    todos w !! next_oid w = None ->
    exists d, todos (served req w) !! next_oid w = Some d
              /\ Js.get d "completed" = Some v.

(** "no PUT request, whatever its body, alters the item's [createdAt]". *)
Definition createdAt_never_changes : Prop :=
  forall (P : Platform) (w : World) (req : IncomingMessage) (oid : ObjectId)
         (d d' : object),
    todos w !! oid = Some d ->
    todos (served req w) !! oid = Some d' ->
    Js.get d' "createdAt" = Js.get d "createdAt".

(** ** Worlds and requests of the examples *)

Module Examples.

Definition quote (s : string) : string := Sample.quoted s.

(** One stored item, [_id] 5, created at time 1000; the clock shows 2000. *)
Definition milk : object :=
  [("title", VString "Buy milk"); ("completed", VBool false); ("createdAt", VDate 1000)].

Definition world : World :=
  mkWorld (Some (mkDb "todo_api")) (Normal tt) {[ 5%N := milk ]} 6%N 2000 []
    (mkResponse None None).

Definition id5 : string := "000000000000000000000005".
Definition id6 : string := "000000000000000000000006".
Definition id9 : string := "000000000000000000000009".

Definition request (m target body : string) : IncomingMessage :=
  mkRequest m target (Some "localhost:8000") [mkChunk 3 body].

(** [{"completed":true}] *)
Definition completed_true : string := "{" +:+ quote "completed" +:+ ":true}".
(** [{"createdAt":null}] *)
Definition createdAt_null : string := "{" +:+ quote "createdAt" +:+ ":null}".
(** [{"title":"Buy eggs"}] *)
Definition title_eggs : string :=
  "{" +:+ quote "title" +:+ ":" +:+ quote "Buy eggs" +:+ "}".
(** [{"title":""}] *)
Definition title_empty : string := "{" +:+ quote "title" +:+ ":" +:+ quote "" +:+ "}".

Definition unreachable : Exn := mkExn "MongoServerSelectionError" "connect ECONNREFUSED".

(** A process that has not connected and whose database is unreachable. *)
Definition offline : World :=
  mkWorld None (Throw unreachable) ∅ 0%N 0 [] (mkResponse None None).

(** Serving a request on the sample platform. *)
Definition served : IncomingMessage -> World -> World := served (H := Sample.platform).
Definition listener : IncomingMessage -> M unit := requestListener (H := Sample.platform).

End Examples.

(** ** Starting the service *)

(** [process.env.PORT || 8000], as the template literal of the start-up
    message shows it; the argument is the environment variable, [None]
    when it is not set. *)
Definition PORT (env_port : option string) : string :=
  match env_port with
  | Some p => string_or p "8000"
  | None => "8000"
  end.

(** The module body of [server.js]: [await connectDB()], then
    [server.listen(PORT, ...)], whose callback announces the server.
    [listening] is how [server.listen] completes, decided by the port and
    the operating system. *)
Definition main (env_port : option string) (listening : Completion unit) : M unit :=
  _ ← connectDB;
  _ ← await listening;
  console_log ("Server running on port http://localhost:" +:+ PORT env_port).

(** ** A platform whose URL constructor refuses

    The sample platform, except that a base with a space in it is an
    invalid URL. *)

Definition has_space (s : string) : bool :=
  existsb (fun c => Ascii.eqb c " ") (chars s).

Definition strict_searchParams (url base : string)
  : Completion (list (string * string)) :=
  if has_space base then Throw (TypeError "Invalid URL")
  else Sample.searchParams url base.

Definition strict_platform : Platform := {|
  JSON_parse := Sample.parse;
  JSON_stringify := Sample.stringify;
  url_pathname := Sample.pathname;
  URL_searchParams := strict_searchParams;
  ObjectId_new := Sample.objectId;
  set_path := Sample.refuse_path;
  JSON_parse_empty_object := eq_refl
|}.

(** ** More vocabulary *)

Definition succeeded {A : Type} (c : Completion A) : bool := negb (failed c).

(** The documents [GET /todos] lists. *)
Definition stored_documents (w : World) : list val :=
  map (fun kv => VObject (Mongo.document (fst kv) (snd kv))) (map_to_list (todos w)).

(** A complete JSON response with one of the four status codes the
    listener uses. *)
Definition answered (w : World) : Prop :=
  exists (code : nat) (body : string),
    res w = mkResponse (Some (code, json_headers)) (Some body)
    /\ In code [200; 201; 400; 404]%nat.

(** What a request cannot touch: the handle, the network, the console. *)
Definition same_process (w w' : World) : Prop :=
  db w' = db w /\ connect_result w' = connect_result w /\ console w' = console w.

(** The request is a [GET] for the path [p]. *)
Definition get_request `{Platform} (req : IncomingMessage) (p : string) : Prop :=
  method req = "GET" /\ url_pathname (url req) = Some p.

(** ** Facts about objects *)

Section ObjectFacts.

Lemma get_set_eq (o : object) k v : Js.get (Js.set o k v) k = Some v.
Proof.
  induction o as [|[k' v'] rest IH]; simpl.
  - by rewrite String.eqb_refl.
  - destruct (String.eqb k' k) eqn:E; simpl; rewrite E; done.
Qed.

Lemma get_set_ne (o : object) k k' v :
  k <> k' -> Js.get (Js.set o k v) k' = Js.get o k'.
Proof.
  intros Hne. induction o as [|[k0 v0] rest IH]; simpl.
  - destruct (String.eqb k k') eqn:E; [|done].
    apply String.eqb_eq in E. contradiction.
  - destruct (String.eqb k0 k) eqn:E; simpl.
    + apply String.eqb_eq in E. subst k0.
      destruct (String.eqb k k') eqn:E'; [|done].
      apply String.eqb_eq in E'. contradiction.
    + by rewrite IH.
Qed.

Lemma get_None_keys (o : object) k : Js.get o k = None <-> ~ In k (keys o).
Proof.
  induction o as [|[k0 v0] rest IH]; simpl.
  - tauto.
  - destruct (String.eqb k0 k) eqn:E.
    + apply String.eqb_eq in E. split; [discriminate | tauto].
    + apply String.eqb_neq in E. rewrite IH. tauto.
Qed.

Lemma keys_set (o : object) k v k' :
  In k' (keys (Js.set o k v)) <-> k' = k \/ In k' (keys o).
Proof.
  induction o as [|[k0 v0] rest IH]; simpl.
  - intuition congruence.
  - destruct (String.eqb k0 k) eqn:E; simpl.
    + apply String.eqb_eq in E. subst. intuition congruence.
    + rewrite IH. tauto.
Qed.

End ObjectFacts.

(** ** Running the listener *)

(** Unfolds the monadic operations so that a computation steps. *)
Ltac run :=
  unfold served, post_todos, put_todos, delete_todos, get_todos, get_root, not_found,
    bad_request, query_id, parseBody, on_end, data_title, db_collection, writeHead,
    end_, Date_new, getDB, connectDB, client_connect, console_log, console_error,
    Mongo.insertOne, Mongo.findOneAndUpdate, Mongo.deleteOne, Mongo.find_toArray,
    try_catch, await, throw, gets, modify, mbind, mret, M_bind, M_ret in *;
  simpl in *.

Section Dispatch.

Context `{Platform}.

Lemma listener_without_handle (req : IncomingMessage) (w : World) :
  db w = None ->
  requestListener req w
  = (Throw (TypeError "Cannot read properties of undefined (reading 'collection')"), w).
Proof. intros Hdb. unfold requestListener. run. by rewrite Hdb. Qed.

Lemma listener_post (req : IncomingMessage) (w : World) (h : Db) :
  db w = Some h -> on_route req "POST" ->
  requestListener req w = post_todos (mkCollection (databaseName h) "todos") req w.
Proof.
  intros Hdb [Hm Hp]. unfold requestListener, getDB, db_collection, gets, mbind, M_bind, mret, M_ret.
  rewrite Hdb, Hm, Hp. reflexivity.
Qed.

Lemma listener_put (req : IncomingMessage) (w : World) (h : Db) :
  db w = Some h -> on_route req "PUT" ->
  requestListener req w = put_todos (mkCollection (databaseName h) "todos") req w.
Proof.
  intros Hdb [Hm Hp]. unfold requestListener, getDB, db_collection, gets, mbind, M_bind, mret, M_ret.
  rewrite Hdb, Hm, Hp. reflexivity.
Qed.

Lemma listener_delete (req : IncomingMessage) (w : World) (h : Db) :
  db w = Some h -> on_route req "DELETE" ->
  requestListener req w = delete_todos (mkCollection (databaseName h) "todos") req w.
Proof.
  intros Hdb [Hm Hp]. unfold requestListener, getDB, db_collection, gets, mbind, M_bind, mret, M_ret.
  rewrite Hdb, Hm, Hp. reflexivity.
Qed.

Lemma route_test (m m' : string) (pathname : option string) (p' : string) :
  String.eqb m m' && path_is pathname p' = true <-> m = m' /\ pathname = Some p'.
Proof.
  rewrite andb_true_iff, String.eqb_eq. unfold path_is.
  destruct pathname as [q|]; [rewrite String.eqb_eq|]; intuition congruence.
Qed.

End Dispatch.

(** ** Unknown routes *)

(** C8: with the database handle set, a request whose (method, path) pair
    is none of the five routes is answered with exactly 404 and the body
    [{"error": "Route not found"}], and nothing else in the world changes:
    no database operation takes place. *)
Theorem unknown_route_not_found `{Platform} (req : IncomingMessage) (w : World) (h : Db) :
  db w = Some h ->
  off_routes req ->
  requestListener req w
  = (Normal tt,
     with_res (mkResponse (Some (404%nat, json_headers))
                 (Some (JSON_stringify (VObject [("error", VString "Route not found")]))))
       w).
Proof.
  intros Hdb Hoff. unfold requestListener, getDB, db_collection, gets, mbind, M_bind, mret, M_ret.
  rewrite Hdb. cbv beta iota.
  assert (Hno : forall m' p', In (m', p') routes ->
            String.eqb (method req) m' && path_is (url_pathname (url req)) p' = false).
  { intros m' p' Hin. apply not_true_is_false. rewrite route_test. intros [Hm Hp].
    apply (Hoff p' Hp). by rewrite Hm. }
  rewrite !Hno by (simpl; tauto).
  reflexivity.
Qed.

(** [PATCH /todos] and [GET /unknown] on the sample platform. *)
Lemma unknown_route_not_found_witness :
  res (Examples.served (Examples.request "PATCH" "/todos" "") Examples.world)
  = mkResponse (Some (404%nat, json_headers))
      (Some (Sample.stringify (VObject [("error", VString "Route not found")])))
  /\ todos (Examples.served (Examples.request "GET" "/unknown" "") Examples.world)
     = todos Examples.world.
Proof.
  split; unfold Examples.served, served.
  - rewrite (unknown_route_not_found (H := Sample.platform)
               (Examples.request "PATCH" "/todos" "") Examples.world (mkDb "todo_api")).
    + reflexivity.
    + reflexivity.
    + intros p Hp. vm_compute in Hp. injection Hp as <-. simpl. intuition discriminate.
  - rewrite (unknown_route_not_found (H := Sample.platform)
               (Examples.request "GET" "/unknown" "") Examples.world (mkDb "todo_api")).
    + reflexivity.
    + reflexivity.
    + intros p Hp. vm_compute in Hp. injection Hp as <-. simpl. intuition discriminate.
Defined.

(** ** The connection manager *)

Lemma connectDB_failure (w : World) (e : Exn) :
  connect_result w = Throw e ->
  connectDB w
  = (Normal tt, with_console (LogError "DB connection error:" e :: console w) w).
Proof. intros Hc. run. by rewrite Hc. Qed.

Lemma connectDB_success (w : World) :
  connect_result w = Normal tt ->
  connectDB w
  = (Normal tt,
     with_console (Log "MongoDB connected" :: console w)
       (with_db (Some (mkDb "todo_api")) w)).
Proof. intros Hc. run. by rewrite Hc. Qed.

Lemma failed_attempts_keep_handle (outcomes : list (Completion unit)) (w : World) :
  forallb failed outcomes = true ->
  db (connect_attempts outcomes w) = db w.
Proof.
  revert w. induction outcomes as [|r rest IH]; intros w Hall; simpl in *.
  - reflexivity.
  - apply andb_true_iff in Hall as [Hr Hrest].
    destruct r as [[]|e]; [discriminate|].
    rewrite IH by assumption.
    by rewrite (connectDB_failure _ e).
Qed.

(** C9: [connectDB] always returns normally.  When the connection attempt
    fails it logs the error and leaves the stored handle as it was, so in
    a process that starts with the handle unset [getDB] returns the unset
    value after any number of failed attempts; a successful attempt
    stores the handle of the database [todo_api]. *)
Theorem connectDB_never_signals_failure (w : World) :
  fst (connectDB w) = Normal tt
  /\ (forall e, connect_result w = Throw e ->
        db (snd (connectDB w)) = db w
        /\ console (snd (connectDB w)) = LogError "DB connection error:" e :: console w
        /\ (fresh_process w -> fst (getDB (snd (connectDB w))) = Normal None))
  /\ (connect_result w = Normal tt ->
        fst (getDB (snd (connectDB w))) = Normal (Some (mkDb "todo_api")))
  /\ (forall outcomes, fresh_process w -> forallb failed outcomes = true ->
        fst (getDB (connect_attempts outcomes w)) = Normal None).
Proof.
  split; [|split; [|split]].
  - destruct (connect_result w) as [[]|e] eqn:Hc.
    + by rewrite connectDB_success.
    + by rewrite (connectDB_failure _ e).
  - intros e Hc. rewrite (connectDB_failure _ e) by assumption. simpl.
    repeat split. intros Hfresh. unfold getDB, gets. simpl. by rewrite Hfresh.
  - intros Hc. by rewrite connectDB_success.
  - intros outcomes Hfresh Hall. unfold getDB, gets. simpl.
    rewrite failed_attempts_keep_handle by assumption. by rewrite Hfresh.
Qed.

(** A process whose database is unreachable: three attempts, no handle. *)
Lemma connectDB_never_signals_failure_witness :
  connectDB Examples.offline
  = (Normal tt,
     with_console [LogError "DB connection error:" Examples.unreachable] Examples.offline)
  /\ fst (getDB (connect_attempts
                  [Throw Examples.unreachable; Throw Examples.unreachable;
                   Throw Examples.unreachable] Examples.offline))
     = Normal None.
Proof.
  split.
  - reflexivity.
  - apply (connectDB_never_signals_failure Examples.offline); reflexivity.
Defined.

(** ** Creating an item *)

Section Create.

Context `{Platform}.

Lemma body_time_nonneg (req : IncomingMessage) : 0 <= body_time req.
Proof. unfold body_time. apply N2Z.is_nonneg. Qed.

(** What [POST /todos] does when the body parses to something other than
    [null] and the generated identifier is free. *)
Lemma post_inserts (req : IncomingMessage) (w : World) (h : Db) (data : val) :
  db w = Some h ->
  on_route req "POST" ->
  JSON_parse (parsed_text req) = Normal data ->
  data <> VNull ->
  todos w !! next_oid w = None ->
  requestListener req w
  = (Normal tt,
     mkWorld (db w) (connect_result w)
       (<[next_oid w := new_todo (own_title data) (VDate (clock w + body_time req))]>
          (todos w))
       (N.succ (next_oid w)) (clock w + body_time req) (console w)
       (mkResponse (Some (201%nat, json_headers))
          (Some (JSON_stringify (Mongo.InsertOneResult (next_oid w)))))).
Proof.
  intros Hdb Hroute Hparse Hnull Hfree.
  rewrite (listener_post req w h Hdb Hroute).
  unfold parsed_text in Hparse. run. rewrite Hparse.
  destruct data; try contradiction; simpl; rewrite Hfree; reflexivity.
Qed.

(** The empty body is read as the text of the empty object. *)
Lemma empty_body_parses (req : IncomingMessage) :
  body_text req = "" \/ body_text req = "{}" ->
  JSON_parse (parsed_text req) = Normal (VObject []).
Proof.
  unfold parsed_text. intros [-> | ->]; simpl; apply JSON_parse_empty_object.
Qed.

End Create.

(** C3: a [POST /todos] with an empty body or the body [{}] inserts, under
    the generated identifier, an item whose [title] is the placeholder,
    whose [completed] is false and whose [createdAt] is a time at or after
    the arrival of the request, and answers 201 with the insertion
    acknowledgement.  The database handle is set and the generated
    identifier is free. *)
Theorem post_empty_body_defaults `{Platform}
    (req : IncomingMessage) (w : World) (h : Db) :
  db w = Some h ->
  on_route req "POST" ->
  body_text req = "" \/ body_text req = "{}" ->
  todos w !! next_oid w = None ->
  exists t : Z,
    clock w <= t
    /\ fst (requestListener req w) = Normal tt
    /\ todos (served req w)
       = <[next_oid w := [("title", VString "Untitled"); ("completed", VBool false);
                          ("createdAt", VDate t)]]> (todos w)
    /\ responded (served req w) 201 (Mongo.InsertOneResult (next_oid w)).
Proof.
  intros Hdb Hroute Hbody Hfree.
  exists (clock w + body_time req). split.
  - pose proof (body_time_nonneg req). lia.
  - unfold served, responded.
    rewrite (post_inserts req w h (VObject []) Hdb Hroute
               (empty_body_parses req Hbody) ltac:(discriminate) Hfree).
    simpl. repeat split.
Qed.

Lemma post_empty_body_defaults_witness :
  exists t : Z,
    2000 <= t
    /\ fst (Examples.listener (Examples.request "POST" "/todos" "") Examples.world)
       = Normal tt
    /\ todos (Examples.served (Examples.request "POST" "/todos" "") Examples.world)
       = <[6%N := [("title", VString "Untitled"); ("completed", VBool false);
                   ("createdAt", VDate t)]]> (todos Examples.world)
    /\ responded (H := Sample.platform)
         (Examples.served (Examples.request "POST" "/todos" "") Examples.world)
         201 (Mongo.InsertOneResult 6%N).
Proof.
  apply (post_empty_body_defaults (H := Sample.platform)
           (Examples.request "POST" "/todos" "") Examples.world (mkDb "todo_api")).
  - reflexivity.
  - split; reflexivity.
  - left. reflexivity.
  - reflexivity.
Defined.

(** The inserted document has no field besides its three. *)
Lemma new_todo_other (title : option val) (now : val) (k : string) :
  k <> "title" -> k <> "completed" -> k <> "createdAt" ->
  Js.get (new_todo title now) k = None.
Proof.
  intros Htitle Hcompleted HcreatedAt.
  apply get_None_keys. unfold new_todo, keys. simpl map.
  intros [E | [E | [E | []]]]; congruence.
Qed.

(** C2, as amended: whatever the body of a [POST /todos] contains, the
    inserted item is exactly the three fields [title], [completed] and
    [createdAt]: [completed] is false and [createdAt] is the time of the
    insertion; only [title] is taken from the body, and the placeholder
    stands in when the body has no [title] (or a falsy one).  Nothing else
    of the body is stored. *)
Theorem post_takes_only_title `{Platform}
    (req : IncomingMessage) (w : World) (h : Db) (data : val) :
  db w = Some h ->
  on_route req "POST" ->
  JSON_parse (parsed_text req) = Normal data ->
  data <> VNull ->
  todos w !! next_oid w = None ->
  exists d : object,
    d = [("title", or_else (own_title data) (VString "Untitled"));
         ("completed", VBool false);
         ("createdAt", VDate (clock w + body_time req))]
    /\ todos (served req w) = <[next_oid w := d]> (todos w)
    /\ Js.get d "completed" = Some (VBool false)
    /\ Js.get d "createdAt" = Some (VDate (clock w + body_time req))
    /\ Js.get d "title" = Some (or_else (own_title data) (VString "Untitled"))
    /\ (own_title data = None -> Js.get d "title" = Some (VString "Untitled"))
    /\ (forall k, k <> "title" -> k <> "completed" -> k <> "createdAt" ->
          Js.get d k = None).
Proof.
  intros Hdb Hroute Hparse Hnull Hfree.
  exists (new_todo (own_title data) (VDate (clock w + body_time req))).
  unfold served. rewrite (post_inserts req w h data Hdb Hroute Hparse Hnull Hfree).
  simpl. repeat split.
  - intros ->. reflexivity.
  - intros k Htitle Hcompleted HcreatedAt.
    exact (new_todo_other (own_title data) (VDate (clock w + body_time req)) k
             Htitle Hcompleted HcreatedAt).
Qed.

(** The body [{"completed":true}]: the stored item is the three fields,
    with [completed] false. *)
Lemma post_takes_only_title_witness :
  exists d : object,
    d = [("title", VString "Untitled"); ("completed", VBool false);
         ("createdAt", VDate 2003)]
    /\ todos (Examples.served (Examples.request "POST" "/todos" Examples.completed_true)
                Examples.world)
       = <[6%N := d]> (todos Examples.world).
Proof.
  destruct (post_takes_only_title (H := Sample.platform)
              (Examples.request "POST" "/todos" Examples.completed_true) Examples.world
              (mkDb "todo_api") (VObject [("completed", VBool true)])
              eq_refl (conj eq_refl eq_refl) eq_refl ltac:(discriminate) eq_refl)
    as (d & Hd & Hstore & _).
  exists d. split; [exact Hd | exact Hstore].
Defined.

(** C2, as stated, fails: the body [{"completed":true}] yields an item
    whose [completed] is false. *)
Lemma completed_not_taken_from_body : ~ completed_taken_from_body.
Proof.
  intros Hclaim.
  destruct (Hclaim Sample.platform Examples.world
              (Examples.request "POST" "/todos" Examples.completed_true)
              (mkDb "todo_api") [("completed", VBool true)] (VBool true)
              eq_refl (conj eq_refl eq_refl) eq_refl eq_refl eq_refl)
    as [d [Hd Hget]].
  vm_compute in Hd. injection Hd as <-. vm_compute in Hget. discriminate.
Qed.

(** C10: when the body of a [POST /todos] has a [title] that is falsy, the
    inserted item's [title] is the placeholder ["Untitled"]; a truthy
    [title] is stored as supplied.  The empty string, [false], zero and
    [null] are falsy. *)
Theorem post_falsy_title_replaced `{Platform}
    (req : IncomingMessage) (w : World) (h : Db) (props : object) (v : val) :
  db w = Some h ->
  on_route req "POST" ->
  JSON_parse (parsed_text req) = Normal (VObject props) ->
  Js.get props "title" = Some v ->
  todos w !! next_oid w = None ->
  (exists d : object,
     todos (served req w) !! next_oid w = Some d
     /\ (truthy v = false -> Js.get d "title" = Some (VString "Untitled"))
     /\ (truthy v = true -> Js.get d "title" = Some v))
  /\ truthy (VString "") = false
  /\ truthy (VBool false) = false
  /\ (forall negative exponent, truthy (VNumber (Finite negative 0 exponent)) = false)
  /\ truthy VNull = false.
Proof.
  intros Hdb Hroute Hparse Htitle Hfree.
  split; [|repeat split].
  exists (new_todo (Some v) (VDate (clock w + body_time req))).
  unfold served.
  rewrite (post_inserts req w h (VObject props) Hdb Hroute Hparse ltac:(discriminate) Hfree).
  simpl. rewrite Htitle, lookup_insert_eq.
  repeat split; intros Ht; simpl; by rewrite Ht.
Qed.

(** The body [{"title":""}]. *)
Lemma post_falsy_title_replaced_witness :
  exists d : object,
    todos (Examples.served (Examples.request "POST" "/todos" Examples.title_empty)
             Examples.world) !! 6%N = Some d
    /\ Js.get d "title" = Some (VString "Untitled").
Proof.
  destruct (post_falsy_title_replaced (H := Sample.platform)
              (Examples.request "POST" "/todos" Examples.title_empty) Examples.world
              (mkDb "todo_api") [("title", VString "")] (VString "")
              eq_refl (conj eq_refl eq_refl) eq_refl eq_refl eq_refl)
    as [[d [Hd [Hfalsy _]]] _].
  exists d. split; [exact Hd | exact (Hfalsy eq_refl)].
Defined.

(** ** Facts about [$set] *)

Section Update.

Context `{Platform}.

Lemma spread_overwrite (data : val) : spread data = overwrite [] (own_props data).
Proof. reflexivity. Qed.

Lemma overwrite_snoc (d fields : object) k v :
  overwrite d (fields ++ [(k, v)])%list = Js.set (overwrite d fields) k v.
Proof. unfold overwrite. by rewrite fold_left_app. Qed.

(** Reading a field after the assignments: the value assigned last, or
    the old value when the field was not assigned. *)
Lemma get_overwrite (d fields : object) (k : string) :
  Js.get (overwrite d fields) k
  = match Js.get (overwrite [] fields) k with
    | Some v => Some v
    | None => Js.get d k
    end.
Proof.
  induction fields as [|[k' v'] fields IH] using rev_ind.
  - reflexivity.
  - rewrite !overwrite_snoc.
    destruct (String.eqb k' k) eqn:E.
    + apply String.eqb_eq in E. subst k'. by rewrite !get_set_eq.
    + apply String.eqb_neq in E. by rewrite !get_set_ne.
Qed.

Lemma set_fresh (o : object) k v : ~ In k (keys o) -> Js.set o k v = (o ++ [(k, v)])%list.
Proof.
  induction o as [|[k0 v0] rest IH]; simpl; intros Hfresh.
  - reflexivity.
  - destruct (String.eqb k0 k) eqn:E.
    + apply String.eqb_eq in E. tauto.
    + rewrite IH; [reflexivity | tauto].
Qed.

Lemma NoDup_keys_set (o : object) k v :
  List.NoDup (keys o) -> List.NoDup (keys (Js.set o k v)).
Proof.
  induction o as [|[k0 v0] rest IH]; simpl; intros Hnd.
  - constructor; [simpl; tauto | constructor].
  - destruct (String.eqb k0 k) eqn:E; simpl; [assumption|].
    inversion Hnd as [|? ? Hfresh Hrest]; subst.
    constructor; [|by apply IH].
    fold (keys (Js.set rest k v)). rewrite keys_set.
    apply String.eqb_neq in E. intros [->|Hin]; [congruence | contradiction].
Qed.

Lemma NoDup_keys_overwrite (d fields : object) :
  List.NoDup (keys d) -> List.NoDup (keys (overwrite d fields)).
Proof.
  revert d. induction fields as [|[k v] fields IH]; intros d Hnd; simpl.
  - assumption.
  - apply IH. by apply NoDup_keys_set.
Qed.

(** Assigning the properties of an object whose names are distinct to the
    empty object gives the object back. *)
Lemma overwrite_NoDup (props : object) :
  List.NoDup (keys props) -> overwrite [] props = props.
Proof.
  induction props as [|[k v] props IH] using rev_ind; intros Hnd.
  - reflexivity.
  - unfold keys in *. rewrite map_app in Hnd. simpl in Hnd.
    apply NoDup_remove in Hnd as [Hnd Hfresh]. rewrite app_nil_r in Hnd, Hfresh.
    rewrite overwrite_snoc, IH by assumption. by apply set_fresh.
Qed.

(** An object whose names are distinct is its own spread. *)
Lemma spread_object (props : object) :
  List.NoDup (keys props) -> spread (VObject props) = props.
Proof. rewrite spread_overwrite. apply overwrite_NoDup. Qed.

(** The names of a spread are distinct. *)
Lemma overwrite_spread (data : val) : overwrite [] (spread data) = spread data.
Proof.
  apply overwrite_NoDup. rewrite spread_overwrite.
  apply NoDup_keys_overwrite. constructor.
Qed.

Lemma plain_fields_cons k v (fields : object) :
  plain_fields ((k, v) :: fields) = true ->
  String.eqb k "_id" = false /\ top_level_field k = true /\ plain_fields fields = true.
Proof.
  unfold plain_fields. simpl. rewrite !andb_true_iff, negb_true_iff. tauto.
Qed.

(** On top-level field names other than [_id], [$set] is the sequence of
    assignments and is never refused. *)
Lemma apply_set_plain (oid : ObjectId) (d fields : object) :
  plain_fields fields = true ->
  Mongo.apply_set oid d fields = Normal (overwrite d fields).
Proof.
  revert d. induction fields as [|[k v] fields IH]; intros d Hplain; simpl.
  - reflexivity.
  - apply plain_fields_cons in Hplain as (Hid & Htop & Hrest).
    unfold Mongo.set_field. rewrite Hid, Htop. by apply IH.
Qed.

(** How the collection can differ after [POST /todos]. *)
Lemma post_todos_store (c : Collection) (req : IncomingMessage) (w : World) :
  todos (snd (post_todos c req w)) = todos w
  \/ (todos w !! next_oid w = None
      /\ exists d, todos (snd (post_todos c req w)) = <[next_oid w := d]> (todos w)).
Proof.
  run.
  destruct (JSON_parse (string_or (body_text req) "{}")) as [data|e]; simpl; [|by left].
  destruct (todos w !! next_oid w) eqn:Hfree;
    destruct data; simpl; rewrite ?Hfree; simpl; eauto.
Qed.

(** How the collection can differ after [PUT /todos]. *)
Lemma put_todos_store (c : Collection) (req : IncomingMessage) (w : World) :
  todos (snd (put_todos c req w)) = todos w
  \/ exists id oid data d d',
       searchParam req "id" = Normal (Some id)
       /\ ObjectId_new id = Normal oid
       /\ JSON_parse (parsed_text req) = Normal data
       /\ todos w !! oid = Some d
       /\ Mongo.apply_set oid d (spread data) = Normal d'
       /\ todos (snd (put_todos c req w)) = <[oid := d']> (todos w).
Proof.
  unfold parsed_text. run.
  destruct (searchParam req "id") as [[id|]|e] eqn:Hid; simpl; try by left.
  destruct (String.eqb id ""); simpl; [by left|].
  destruct (JSON_parse (string_or (body_text req) "{}")) as [data|e] eqn:Hdata;
    simpl; [|by left].
  destruct (ObjectId_new id) as [oid|e] eqn:Hoid; simpl; [|by left].
  destruct (todos w !! oid) as [d|] eqn:Hd; simpl; [|by left].
  destruct (Mongo.apply_set oid d (spread data)) as [d'|e] eqn:Hset; simpl; [|by left].
  right. exists id, oid, data, d, d'. by rewrite Hset.
Qed.

(** How the collection can differ after [DELETE /todos]. *)
Lemma delete_todos_store (c : Collection) (req : IncomingMessage) (w : World) :
  todos (snd (delete_todos c req w)) = todos w
  \/ exists id oid,
       searchParam req "id" = Normal (Some id)
       /\ ObjectId_new id = Normal oid
       /\ todos (snd (delete_todos c req w)) = delete oid (todos w).
Proof.
  run.
  destruct (searchParam req "id") as [[id|]|e] eqn:Hid; simpl; try by left.
  destruct (String.eqb id ""); simpl; [by left|].
  destruct (ObjectId_new id) as [oid|e] eqn:Hoid; simpl; [|by left].
  right. by exists id, oid.
Qed.

Lemma route_case (req : IncomingMessage) (m p : string) :
  { method req = m
    /\ String.eqb (method req) m && path_is (url_pathname (url req)) p = true }
  + { String.eqb (method req) m && path_is (url_pathname (url req)) p = false }.
Proof.
  destruct (String.eqb (method req) m && path_is (url_pathname (url req)) p) eqn:E.
  - left. apply route_test in E as [Hm _]. by split.
  - by right.
Qed.

(** The listener changes the collection only through these three. *)
Lemma listener_store (req : IncomingMessage) (w : World) :
  todos (served req w) = todos w
  \/ (exists c, method req = "POST" /\ served req w = snd (post_todos c req w))
  \/ (exists c, method req = "PUT" /\ served req w = snd (put_todos c req w))
  \/ (exists c, method req = "DELETE" /\ served req w = snd (delete_todos c req w)).
Proof.
  unfold served, requestListener, getDB, db_collection, gets, mbind, M_bind, mret, M_ret.
  destruct (db w) as [h|]; simpl; [|by left].
  set (c := mkCollection (databaseName h) "todos").
  destruct (route_case req "GET" "/") as [[_ E1]|E1]; rewrite E1; [by left|].
  destruct (route_case req "GET" "/todos") as [[_ E2]|E2]; rewrite E2; [by left|].
  destruct (route_case req "POST" "/todos") as [[Hm E3]|E3]; rewrite E3.
  { right. left. by exists c. }
  destruct (route_case req "PUT" "/todos") as [[Hm E4]|E4]; rewrite E4.
  { right. right. left. by exists c. }
  destruct (route_case req "DELETE" "/todos") as [[Hm E5]|E5]; rewrite E5.
  { right. right. right. by exists c. }
  by left.
Qed.

End Update.

(** ** Updating an item *)

Section Put.

Context `{Platform}.

(** What [PUT /todos?id=<id>] does to a stored item when the body names
    top-level fields. *)
Lemma put_updates (req : IncomingMessage) (w : World) (h : Db)
    (id : string) (oid : ObjectId) (data : val) (d : object) :
  db w = Some h ->
  on_route req "PUT" ->
  searchParam req "id" = Normal (Some id) ->
  id <> "" ->
  ObjectId_new id = Normal oid ->
  JSON_parse (parsed_text req) = Normal data ->
  plain_fields (spread data) = true ->
  todos w !! oid = Some d ->
  requestListener req w
  = (Normal tt,
     mkWorld (db w) (connect_result w)
       (<[oid := overwrite d (spread data)]> (todos w))
       (next_oid w) (clock w + body_time req) (console w)
       (mkResponse (Some (200%nat, json_headers))
          (Some (JSON_stringify
                   (VObject (Mongo.document oid (overwrite d (spread data)))))))).
Proof.
  intros Hdb Hroute Hid Hne Hoid Hparse Hplain Hd.
  rewrite (listener_put req w h Hdb Hroute).
  unfold parsed_text in Hparse. apply String.eqb_neq in Hne.
  run. rewrite Hid. simpl. rewrite Hne. simpl. rewrite Hparse. simpl.
  rewrite Hoid. simpl. rewrite Hd, (apply_set_plain oid d _ Hplain). reflexivity.
Qed.

(** A [PUT /todos] whose [id] is missing or empty. *)
Lemma put_missing_id (req : IncomingMessage) (w : World) (h : Db) (id : option string) :
  db w = Some h ->
  on_route req "PUT" ->
  searchParam req "id" = Normal id ->
  string_truthy id = false ->
  requestListener req w
  = (Normal tt,
     with_res (mkResponse (Some (400%nat, json_headers))
                 (Some (JSON_stringify (VObject [("error", VString "Missing ID")]))))
       w).
Proof.
  intros Hdb Hroute Hid Hfalsy.
  rewrite (listener_put req w h Hdb Hroute).
  run. rewrite Hid. simpl.
  destruct id as [id|]; simpl in *; [|reflexivity].
  apply negb_false_iff in Hfalsy. by rewrite Hfalsy.
Qed.

End Put.

(** C1: a [PUT /todos?id=<id>] on a stored item, with a body that names
    top-level fields other than [_id], gives each field of the body its
    new value, leaves every other field of the item as it was, leaves the
    other items alone, and answers 200 with the document as it is after
    the update. *)
Theorem put_overwrites_exactly_body_fields `{Platform}
    (req : IncomingMessage) (w : World) (h : Db)
    (id : string) (oid : ObjectId) (data : val) (d : object) :
  db w = Some h ->
  on_route req "PUT" ->
  searchParam req "id" = Normal (Some id) ->
  id <> "" ->
  ObjectId_new id = Normal oid ->
  JSON_parse (parsed_text req) = Normal data ->
  plain_fields (spread data) = true ->
  todos w !! oid = Some d ->
  exists d' : object,
    fst (requestListener req w) = Normal tt
    /\ todos (served req w) = <[oid := d']> (todos w)
    /\ (forall k v, Js.get (spread data) k = Some v -> Js.get d' k = Some v)
    /\ (forall k, Js.get (spread data) k = None -> Js.get d' k = Js.get d k)
    /\ responded (served req w) 200 (VObject (Mongo.document oid d')).
Proof.
  intros Hdb Hroute Hid Hne Hoid Hparse Hplain Hd.
  exists (overwrite d (spread data)). unfold served, responded.
  rewrite (put_updates req w h id oid data d) by assumption. simpl.
  repeat split.
  - intros k v Hk. by rewrite get_overwrite, overwrite_spread, Hk.
  - intros k Hk. by rewrite get_overwrite, overwrite_spread, Hk.
Qed.

(** [PUT /todos?id=...5] with the body [{"completed":true}]: [completed]
    becomes true and [title] stays. *)
Lemma put_overwrites_exactly_body_fields_witness :
  exists d' : object,
    todos (Examples.served
             (Examples.request "PUT" ("/todos?id=" +:+ Examples.id5) Examples.completed_true)
             Examples.world)
    = <[5%N := d']> (todos Examples.world)
    /\ Js.get d' "completed" = Some (VBool true)
    /\ Js.get d' "title" = Some (VString "Buy milk")
    /\ Js.get d' "createdAt" = Some (VDate 1000).
Proof.
  destruct (put_overwrites_exactly_body_fields (H := Sample.platform)
              (Examples.request "PUT" ("/todos?id=" +:+ Examples.id5) Examples.completed_true)
              Examples.world (mkDb "todo_api") Examples.id5 5%N
              (VObject [("completed", VBool true)]) Examples.milk
              eq_refl (conj eq_refl eq_refl) eq_refl ltac:(discriminate)
              eq_refl eq_refl eq_refl eq_refl)
    as (d' & _ & Hstore & Hnew & Hold & _).
  exists d'. split; [exact Hstore|]. split; [|split].
  - apply Hnew. reflexivity.
  - rewrite Hold by reflexivity. reflexivity.
  - rewrite Hold by reflexivity. reflexivity.
Defined.

(** C4, as amended: the [createdAt] of a stored item is the same after any
    request as before it, as long as the item is still stored, unless the
    request is a [PUT] for this item whose body names [createdAt] or a
    name that is not a top-level field. *)
Theorem createdAt_kept `{Platform}
    (req : IncomingMessage) (w : World) (oid : ObjectId) (d d' : object) :
  (forall id data,
     method req = "PUT" ->
     searchParam req "id" = Normal (Some id) ->
     ObjectId_new id = Normal oid ->
     JSON_parse (parsed_text req) = Normal data ->
     plain_fields (spread data) = true /\ Js.get (spread data) "createdAt" = None) ->
  todos w !! oid = Some d ->
  todos (served req w) !! oid = Some d' ->
  Js.get d' "createdAt" = Js.get d "createdAt".
Proof.
  intros Hput Hd Hd'.
  destruct (listener_store req w) as [Hsame | [(c & Hm & Hrun) | [(c & Hm & Hrun) | (c & Hm & Hrun)]]].
  - rewrite Hsame in Hd'. congruence.
  - rewrite Hrun in Hd'.
    destruct (post_todos_store c req w) as [Hsame | (Hfree & fresh & Hins)].
    + rewrite Hsame in Hd'. congruence.
    + rewrite Hins in Hd'.
      rewrite lookup_insert_ne in Hd' by congruence. congruence.
  - rewrite Hrun in Hd'.
    destruct (put_todos_store c req w)
      as [Hsame | (id & target & data & old & new & Hid & Hoid & Hdata & Hold & Hset & Hupd)].
    + rewrite Hsame in Hd'. congruence.
    + rewrite Hupd in Hd'.
      destruct (decide (target = oid)) as [->|Hne].
      * rewrite lookup_insert_eq in Hd'.
        destruct (Hput id data Hm Hid Hoid Hdata) as [Hplain Hnone].
        rewrite apply_set_plain in Hset by assumption.
        assert (d' = overwrite d (spread data)) as -> by congruence.
        by rewrite get_overwrite, overwrite_spread, Hnone.
      * rewrite lookup_insert_ne in Hd' by assumption. congruence.
  - rewrite Hrun in Hd'.
    destruct (delete_todos_store c req w) as [Hsame | (id & target & Hid & Hoid & Hdel)].
    + rewrite Hsame in Hd'. congruence.
    + rewrite Hdel in Hd'.
      destruct (decide (target = oid)) as [->|Hne].
      * by rewrite lookup_delete_eq in Hd'.
      * rewrite lookup_delete_ne in Hd' by assumption. congruence.
Qed.

(** [PUT /todos?id=...5] with the body [{"completed":true}] keeps the
    [createdAt] of item 5. *)
Lemma createdAt_kept_witness :
  todos (Examples.served
           (Examples.request "PUT" ("/todos?id=" +:+ Examples.id5) Examples.completed_true)
           Examples.world) !! 5%N
  = Some [("title", VString "Buy milk"); ("completed", VBool true);
          ("createdAt", VDate 1000)]
  /\ Js.get [("title", VString "Buy milk"); ("completed", VBool true);
             ("createdAt", VDate 1000)] "createdAt"
     = Js.get Examples.milk "createdAt".
Proof.
  split; [reflexivity|].
  apply (createdAt_kept (H := Sample.platform)
           (Examples.request "PUT" ("/todos?id=" +:+ Examples.id5) Examples.completed_true)
           Examples.world 5%N Examples.milk).
  - intros id data _ Hid _ Hdata.
    vm_compute in Hdata. injection Hdata as <-. split; reflexivity.
  - reflexivity.
  - reflexivity.
Defined.

(** C4, as stated, fails: [PUT /todos?id=...5] with the body
    [{"createdAt":null}] replaces the [createdAt] of item 5. *)
Lemma createdAt_overwritten_by_put : ~ createdAt_never_changes.
Proof.
  intros Hclaim.
  specialize (Hclaim Sample.platform Examples.world
                (Examples.request "PUT" ("/todos?id=" +:+ Examples.id5)
                   Examples.createdAt_null)
                5%N Examples.milk
                [("title", VString "Buy milk"); ("completed", VBool false);
                 ("createdAt", VNull)]
                eq_refl eq_refl).
  vm_compute in Hclaim. discriminate.
Qed.

(** C5: a [PUT /todos] whose URL has no [id] parameter (or an empty one)
    is answered with 400 and the message ["Missing ID"], and the world is
    otherwise as before; and a [PUT /todos] whose [id] denotes no stored
    item leaves the collection as it was, so it creates no item. *)
Theorem put_without_target_changes_nothing `{Platform}
    (req : IncomingMessage) (w : World) (h : Db) :
  db w = Some h ->
  on_route req "PUT" ->
  (forall id, searchParam req "id" = Normal id -> string_truthy id = false ->
     requestListener req w
     = (Normal tt,
        with_res (mkResponse (Some (400%nat, json_headers))
                    (Some (JSON_stringify (VObject [("error", VString "Missing ID")]))))
          w))
  /\ ((forall id oid, searchParam req "id" = Normal (Some id) ->
         ObjectId_new id = Normal oid -> todos w !! oid = None) ->
      todos (served req w) = todos w).
Proof.
  intros Hdb Hroute. split.
  - intros id Hid Hfalsy. by apply (put_missing_id req w h id).
  - intros Hnone. unfold served. rewrite (listener_put req w h Hdb Hroute).
    destruct (put_todos_store (mkCollection (databaseName h) "todos") req w)
      as [Hsame | (id & oid & data & d & d' & Hid & Hoid & _ & Hd & _)].
    + exact Hsame.
    + rewrite (Hnone id oid Hid Hoid) in Hd. discriminate.
Qed.

(** [PUT /todos] without [id], and [PUT /todos?id=...9] where no item 9 is
    stored. *)
Lemma put_without_target_changes_nothing_witness :
  Examples.listener (Examples.request "PUT" "/todos" Examples.completed_true) Examples.world
  = (Normal tt,
     with_res (mkResponse (Some (400%nat, json_headers))
                 (Some (Sample.stringify (VObject [("error", VString "Missing ID")]))))
       Examples.world)
  /\ todos (Examples.served
              (Examples.request "PUT" ("/todos?id=" +:+ Examples.id9) Examples.completed_true)
              Examples.world)
     = todos Examples.world.
Proof.
  split.
  - apply (put_without_target_changes_nothing (H := Sample.platform)
             (Examples.request "PUT" "/todos" Examples.completed_true) Examples.world
             (mkDb "todo_api") eq_refl (conj eq_refl eq_refl)) with (id := None);
      reflexivity.
  - apply (put_without_target_changes_nothing (H := Sample.platform)
             (Examples.request "PUT" ("/todos?id=" +:+ Examples.id9) Examples.completed_true)
             Examples.world (mkDb "todo_api") eq_refl (conj eq_refl eq_refl)).
    intros id oid Hid Hoid. vm_compute in Hid. injection Hid as <-.
    vm_compute in Hoid. injection Hoid as <-. reflexivity.
Defined.

(** ** Deleting an item *)

Lemma delete_removes `{Platform} (req : IncomingMessage) (w : World) (h : Db)
    (id : string) (oid : ObjectId) :
  db w = Some h ->
  on_route req "DELETE" ->
  searchParam req "id" = Normal (Some id) ->
  id <> "" ->
  ObjectId_new id = Normal oid ->
  requestListener req w
  = (Normal tt,
     mkWorld (db w) (connect_result w) (delete oid (todos w)) (next_oid w) (clock w)
       (console w)
       (mkResponse (Some (200%nat, json_headers))
          (Some (JSON_stringify (VObject [("message", VString "Todo deleted")]))))).
Proof.
  intros Hdb Hroute Hid Hne Hoid.
  rewrite (listener_delete req w h Hdb Hroute). apply String.eqb_neq in Hne.
  run. rewrite Hid. simpl. rewrite Hne. simpl. rewrite Hoid. reflexivity.
Qed.

(** X9: a [DELETE /todos?id=<id>] whose [id] the [ObjectId] constructor
    refuses is answered 400 with the constructor's message: the exception
    is caught, nothing is deleted and nothing else changes. *)
Lemma delete_refused_id `{Platform} (req : IncomingMessage) (w : World) (h : Db)
    (id : string) (e : Exn) :
  db w = Some h ->
  on_route req "DELETE" ->
  searchParam req "id" = Normal (Some id) ->
  id <> "" ->
  ObjectId_new id = Throw e ->
  requestListener req w
  = (Normal tt,
     with_res (mkResponse (Some (400%nat, json_headers))
                 (Some (JSON_stringify (VObject [("error", VString (message e))]))))
       w).
Proof.
  intros Hdb Hroute Hid Hne Hoid.
  rewrite (listener_delete req w h Hdb Hroute). apply String.eqb_neq in Hne.
  run. rewrite Hid. simpl. rewrite Hne. simpl. rewrite Hoid. reflexivity.
Qed.

(** C6: a [DELETE /todos?id=<id>] removes the item that [id] denotes and
    leaves every other item as it was; when [id] denotes no stored item
    the collection is unchanged; in both cases the answer is 200 with the
    body [{"message": "Todo deleted"}]. *)
Theorem delete_removes_exactly_target `{Platform}
    (req : IncomingMessage) (w : World) (h : Db) (id : string) (oid : ObjectId) :
  db w = Some h ->
  on_route req "DELETE" ->
  searchParam req "id" = Normal (Some id) ->
  id <> "" ->
  ObjectId_new id = Normal oid ->
  fst (requestListener req w) = Normal tt
  /\ todos (served req w) !! oid = None
  /\ (forall other, other <> oid -> todos (served req w) !! other = todos w !! other)
  /\ (todos w !! oid = None -> todos (served req w) = todos w)
  /\ responded (served req w) 200 (VObject [("message", VString "Todo deleted")]).
Proof.
  intros Hdb Hroute Hid Hne Hoid. unfold served, responded.
  rewrite (delete_removes req w h id oid) by assumption. simpl.
  repeat split.
  - apply lookup_delete_eq.
  - intros other Hother. by apply lookup_delete_ne.
  - apply delete_id.
Qed.

(** Deleting item 5, and deleting item 9, which is not stored. *)
Lemma delete_removes_exactly_target_witness :
  todos (Examples.served (Examples.request "DELETE" ("/todos?id=" +:+ Examples.id5) "")
           Examples.world) !! 5%N = None
  /\ todos (Examples.served (Examples.request "DELETE" ("/todos?id=" +:+ Examples.id9) "")
              Examples.world) = todos Examples.world
  /\ responded (H := Sample.platform)
       (Examples.served (Examples.request "DELETE" ("/todos?id=" +:+ Examples.id9) "")
          Examples.world)
       200 (VObject [("message", VString "Todo deleted")]).
Proof.
  split; [|split].
  - apply (delete_removes_exactly_target (H := Sample.platform)
             (Examples.request "DELETE" ("/todos?id=" +:+ Examples.id5) "")
             Examples.world (mkDb "todo_api") Examples.id5 5%N
             eq_refl (conj eq_refl eq_refl) eq_refl ltac:(discriminate) eq_refl).
  - apply (delete_removes_exactly_target (H := Sample.platform)
             (Examples.request "DELETE" ("/todos?id=" +:+ Examples.id9) "")
             Examples.world (mkDb "todo_api") Examples.id9 9%N
             eq_refl (conj eq_refl eq_refl) eq_refl ltac:(discriminate) eq_refl).
    reflexivity.
  - apply (delete_removes_exactly_target (H := Sample.platform)
             (Examples.request "DELETE" ("/todos?id=" +:+ Examples.id9) "")
             Examples.world (mkDb "todo_api") Examples.id9 9%N
             eq_refl (conj eq_refl eq_refl) eq_refl ltac:(discriminate) eq_refl).
Defined.

(** ** Reading the body *)

Section Body.

Context `{Platform}.

Lemma string_or_nonempty (s t : string) : s <> "" -> string_or s t = s.
Proof. intros Hne. unfold string_or. apply String.eqb_neq in Hne. by rewrite Hne. Qed.

Lemma parseBody_rejects (req : IncomingMessage) (w : World) (e : Exn) :
  body_text req <> "" ->
  JSON_parse (body_text req) = Throw e ->
  parseBody req w = (Throw e, with_clock (clock w + body_time req) w).
Proof.
  intros Hne He. run. by rewrite (string_or_nonempty _ _ Hne), He.
Qed.

Lemma post_malformed (req : IncomingMessage) (w : World) (h : Db) (e : Exn) :
  db w = Some h ->
  on_route req "POST" ->
  body_text req <> "" ->
  JSON_parse (body_text req) = Throw e ->
  requestListener req w
  = (Normal tt,
     mkWorld (db w) (connect_result w) (todos w) (next_oid w)
       (clock w + body_time req) (console w)
       (mkResponse (Some (400%nat, json_headers))
          (Some (JSON_stringify (VObject [("error", VString (message e))]))))).
Proof.
  intros Hdb Hroute Hne He. rewrite (listener_post req w h Hdb Hroute).
  run. by rewrite (string_or_nonempty _ _ Hne), He.
Qed.

Lemma put_malformed (req : IncomingMessage) (w : World) (h : Db) (id : string) (e : Exn) :
  db w = Some h ->
  on_route req "PUT" ->
  searchParam req "id" = Normal (Some id) ->
  id <> "" ->
  body_text req <> "" ->
  JSON_parse (body_text req) = Throw e ->
  requestListener req w
  = (Normal tt,
     mkWorld (db w) (connect_result w) (todos w) (next_oid w)
       (clock w + body_time req) (console w)
       (mkResponse (Some (400%nat, json_headers))
          (Some (JSON_stringify (VObject [("error", VString (message e))]))))).
Proof.
  intros Hdb Hroute Hid Hidne Hne He. rewrite (listener_put req w h Hdb Hroute).
  apply String.eqb_neq in Hidne.
  run. rewrite Hid. simpl. rewrite Hidne. simpl.
  by rewrite (string_or_nonempty _ _ Hne), He.
Qed.

End Body.

(** C7: [parseBody] reads an empty body as the empty object, and rejects
    with the parser's exception when the body is text that [JSON.parse]
    refuses.  On [POST /todos], and on [PUT /todos?id=<id>], the listener
    catches that exception and answers 400 with the exception's message;
    the collection and the identifier supply are as before. *)
Theorem malformed_body_answered_400 `{Platform} (req : IncomingMessage) (w : World) :
  (body_text req = "" ->
   parseBody req w = (Normal (VObject []), with_clock (clock w + body_time req) w))
  /\ (forall e, body_text req <> "" -> JSON_parse (body_text req) = Throw e ->
        parseBody req w = (Throw e, with_clock (clock w + body_time req) w)
        /\ forall h, db w = Some h ->
             on_route req "POST"
             \/ (on_route req "PUT"
                 /\ exists id, searchParam req "id" = Normal (Some id) /\ id <> "") ->
             requestListener req w
             = (Normal tt,
                mkWorld (db w) (connect_result w) (todos w) (next_oid w)
                  (clock w + body_time req) (console w)
                  (mkResponse (Some (400%nat, json_headers))
                     (Some (JSON_stringify
                              (VObject [("error", VString (message e))])))))).
Proof.
  split.
  - intros Hempty. run. rewrite Hempty. simpl. by rewrite JSON_parse_empty_object.
  - intros e Hne He. split; [by apply parseBody_rejects|].
    intros h Hdb [Hpost | (Hput & id & Hid & Hidne)].
    + by apply (post_malformed req w h e).
    + by apply (put_malformed req w h id e).
Qed.

(** An empty body, and the body [{] sent to [POST /todos] and to
    [PUT /todos?id=...5]. *)
Lemma malformed_body_answered_400_witness :
  parseBody (H := Sample.platform) (Examples.request "POST" "/todos" "") Examples.world
  = (Normal (VObject []), with_clock 2003 Examples.world)
  /\ Examples.listener (Examples.request "POST" "/todos" "{") Examples.world
     = (Normal tt,
        with_res (mkResponse (Some (400%nat, json_headers))
                    (Some (Sample.stringify
                             (VObject [("error", VString "Unexpected token in JSON")]))))
          (with_clock 2003 Examples.world))
  /\ todos (Examples.served (Examples.request "PUT" ("/todos?id=" +:+ Examples.id5) "{")
              Examples.world)
     = todos Examples.world.
Proof.
  split; [|split].
  - apply (malformed_body_answered_400 (H := Sample.platform)
             (Examples.request "POST" "/todos" "") Examples.world).
    reflexivity.
  - destruct (malformed_body_answered_400 (H := Sample.platform)
                (Examples.request "POST" "/todos" "{") Examples.world) as [_ Hbad].
    destruct (Hbad (Sample.SyntaxError "Unexpected token in JSON")
                ltac:(discriminate) eq_refl) as [_ Hcaught].
    apply (Hcaught (mkDb "todo_api") eq_refl).
    left. split; reflexivity.
  - destruct (malformed_body_answered_400 (H := Sample.platform)
                (Examples.request "PUT" ("/todos?id=" +:+ Examples.id5) "{")
                Examples.world) as [_ Hbad].
    destruct (Hbad (Sample.SyntaxError "Unexpected token in JSON")
                ltac:(discriminate) eq_refl) as [_ Hcaught].
    unfold Examples.served, served.
    rewrite (Hcaught (mkDb "todo_api") eq_refl).
    + reflexivity.
    + right. split; [split; reflexivity|].
      exists Examples.id5. split; [reflexivity | discriminate].
Defined.

(** ** A round trip

    [POST /todos] with [{"title":"Buy eggs"}], then [PUT /todos?id=...6]
    with [{"completed":true}], then [GET /todos], on the sample platform. *)
Example round_trip :
  let w1 := Examples.served (Examples.request "POST" "/todos" Examples.title_eggs)
              Examples.world in
  let w2 := Examples.served
              (Examples.request "PUT" ("/todos?id=" +:+ Examples.id6)
                 Examples.completed_true) w1 in
  let w3 := Examples.served (Examples.request "GET" "/todos" "") w2 in
  res w1 = mkResponse (Some (201%nat, json_headers))
             (Some (Sample.stringify (Mongo.InsertOneResult 6%N)))
  /\ todos w2 !! 6%N
     = Some [("title", VString "Buy eggs"); ("completed", VBool true);
             ("createdAt", VDate 2003)]
  /\ todos w2 !! 5%N = Some Examples.milk
  /\ head (res w3) = Some (200%nat, json_headers)
  /\ todos w3 = todos w2.
Proof. vm_compute. repeat split. Qed.

(** ** The reading routes *)

Section Reading.

Context `{Platform}.

Lemma listener_get_root (req : IncomingMessage) (w : World) (h : Db) :
  db w = Some h -> get_request req "/" ->
  requestListener req w = get_root w.
Proof.
  intros Hdb [Hm Hp]. unfold requestListener, getDB, db_collection, gets, mbind, M_bind, mret, M_ret.
  rewrite Hdb, Hm, Hp. reflexivity.
Qed.

Lemma listener_get_todos (req : IncomingMessage) (w : World) (h : Db) :
  db w = Some h -> get_request req "/todos" ->
  requestListener req w = get_todos (mkCollection (databaseName h) "todos") w.
Proof.
  intros Hdb [Hm Hp]. unfold requestListener, getDB, db_collection, gets, mbind, M_bind, mret, M_ret.
  rewrite Hdb, Hm, Hp. reflexivity.
Qed.

Lemma stored_documents_spec (w : World) (oid : ObjectId) (d : object) :
  In (VObject (Mongo.document oid d)) (stored_documents w) <-> todos w !! oid = Some d.
Proof.
  unfold stored_documents. rewrite in_map_iff. split.
  - intros ([oid' d'] & Heq & Hin). simpl in Heq. unfold Mongo.document in Heq.
    injection Heq as -> ->.
    by apply list_elem_of_In, elem_of_map_to_list in Hin.
  - intros Hd. exists (oid, d). split; [reflexivity|].
    by apply list_elem_of_In, elem_of_map_to_list.
Qed.

End Reading.

(** X1: with the database handle set, [GET /] is answered 200 with the
    fixed status message, whatever the body, the query string and the
    stored items are; the body is not read and nothing else changes. *)
Theorem get_root_status_message `{Platform} (req : IncomingMessage) (w : World) (h : Db) :
  db w = Some h ->
  get_request req "/" ->
  requestListener req w
  = (Normal tt,
     with_res (mkResponse (Some (200%nat, json_headers))
                 (Some (JSON_stringify
                          (VObject [("message", VString "Node.js To-Do API running...")]))))
       w).
Proof. intros Hdb Hget. by rewrite (listener_get_root req w h Hdb Hget). Qed.

Lemma get_root_status_message_witness :
  Examples.listener (Examples.request "GET" "/?id=1" Examples.completed_true) Examples.world
  = (Normal tt,
     with_res (mkResponse (Some (200%nat, json_headers))
                 (Some (Sample.stringify
                          (VObject [("message", VString "Node.js To-Do API running...")]))))
       Examples.world).
Proof.
  apply (get_root_status_message (H := Sample.platform)
           (Examples.request "GET" "/?id=1" Examples.completed_true) Examples.world
           (mkDb "todo_api") eq_refl (conj eq_refl eq_refl)).
Defined.

(** X2: with the database handle set, [GET /todos] is answered 200 with
    the array of the stored documents: one document per stored item, each
    carrying its [_id] and its fields, and no document that is not
    stored.  Nothing but the response changes. *)
Theorem get_todos_lists_every_item `{Platform} (req : IncomingMessage) (w : World) (h : Db) :
  db w = Some h ->
  get_request req "/todos" ->
  requestListener req w
  = (Normal tt,
     with_res (mkResponse (Some (200%nat, json_headers))
                 (Some (JSON_stringify (VArray (stored_documents w)))))
       w)
  /\ length (stored_documents w) = size (todos w)
  /\ (forall oid d,
        In (VObject (Mongo.document oid d)) (stored_documents w)
        <-> todos w !! oid = Some d)
  /\ (forall v, In v (stored_documents w) ->
        exists oid d, v = VObject (("_id", VObjectId oid) :: d)
                      /\ todos w !! oid = Some d).
Proof.
  intros Hdb Hget. split; [|split; [|split]].
  - rewrite (listener_get_todos req w h Hdb Hget). run.
    unfold stored_documents. by rewrite map_map.
  - unfold stored_documents. by rewrite length_map, length_map_to_list.
  - intros oid d. apply stored_documents_spec.
  - intros v Hv. pose proof Hv as Hin. unfold stored_documents in Hv.
    apply in_map_iff in Hv as ([oid d] & <- & _). exists oid, d. split; [reflexivity|].
    by apply stored_documents_spec.
Qed.

Lemma get_todos_lists_every_item_witness :
  Examples.listener (Examples.request "GET" "/todos" "") Examples.world
  = (Normal tt,
     with_res (mkResponse (Some (200%nat, json_headers))
                 (Some (Sample.stringify
                          (VArray [VObject (("_id", VObjectId 5%N) :: Examples.milk)]))))
       Examples.world)
  /\ length (stored_documents Examples.world) = 1%nat.
Proof.
  destruct (get_todos_lists_every_item (H := Sample.platform)
              (Examples.request "GET" "/todos" "") Examples.world (mkDb "todo_api")
              eq_refl (conj eq_refl eq_refl)) as (Hrun & Hlen & _).
  split; [exact Hrun | exact Hlen].
Defined.

(** ** What every request does and does not do *)

(** Splits on the scrutinee of a [match] in the goal. *)
Ltac cases :=
  repeat match goal with
         | |- context [match ?x with _ => _ end] =>
             lazymatch x with
             | context [match _ with _ => _ end] => fail
             | _ => destruct x eqn:?; simpl
             end
         end.

Ltac outcome :=
  unfold same_process, answered; run; cases;
  (split; [reflexivity | split; [by repeat split |]]);
  eexists _, _; (split; [reflexivity | simpl; tauto]).

Section Outcomes.

Context `{Platform}.

(** With a handle, the listener is one of its six branches. *)
Lemma listener_branch (req : IncomingMessage) (w : World) (h : Db) :
  db w = Some h ->
  let c := mkCollection (databaseName h) "todos" in
  requestListener req w = get_root w
  \/ requestListener req w = get_todos c w
  \/ requestListener req w = post_todos c req w
  \/ requestListener req w = put_todos c req w
  \/ requestListener req w = delete_todos c req w
  \/ requestListener req w = not_found w.
Proof.
  intros Hdb c. unfold requestListener, getDB, db_collection, gets, mbind, M_bind, mret, M_ret.
  rewrite Hdb. cbv beta iota. fold c.
  destruct (route_case req "GET" "/") as [[_ E1]|E1]; rewrite E1; [tauto|].
  destruct (route_case req "GET" "/todos") as [[_ E2]|E2]; rewrite E2; [tauto|].
  destruct (route_case req "POST" "/todos") as [[_ E3]|E3]; rewrite E3; [tauto|].
  destruct (route_case req "PUT" "/todos") as [[_ E4]|E4]; rewrite E4; [tauto|].
  destruct (route_case req "DELETE" "/todos") as [[_ E5]|E5]; rewrite E5; tauto.
Qed.

Lemma get_root_outcome (w : World) :
  fst (get_root w) = Normal tt
  /\ same_process w (snd (get_root w)) /\ answered (snd (get_root w)).
Proof. outcome. Qed.

Lemma get_todos_outcome (c : Collection) (w : World) :
  fst (get_todos c w) = Normal tt
  /\ same_process w (snd (get_todos c w)) /\ answered (snd (get_todos c w)).
Proof. outcome. Qed.

Lemma post_todos_outcome (c : Collection) (req : IncomingMessage) (w : World) :
  fst (post_todos c req w) = Normal tt
  /\ same_process w (snd (post_todos c req w)) /\ answered (snd (post_todos c req w)).
Proof. outcome. Qed.

Lemma put_todos_outcome (c : Collection) (req : IncomingMessage) (w : World) :
  fst (put_todos c req w) = Normal tt
  /\ same_process w (snd (put_todos c req w)) /\ answered (snd (put_todos c req w)).
Proof. outcome. Qed.

Lemma delete_todos_outcome (c : Collection) (req : IncomingMessage) (w : World) :
  fst (delete_todos c req w) = Normal tt
  /\ same_process w (snd (delete_todos c req w))
  /\ answered (snd (delete_todos c req w)).
Proof. outcome. Qed.

Lemma not_found_outcome (w : World) :
  fst (not_found w) = Normal tt
  /\ same_process w (snd (not_found w)) /\ answered (snd (not_found w)).
Proof. outcome. Qed.

Lemma listener_outcome (req : IncomingMessage) (w : World) (h : Db) :
  db w = Some h ->
  fst (requestListener req w) = Normal tt
  /\ same_process w (served req w) /\ answered (served req w).
Proof.
  intros Hdb. unfold served.
  destruct (listener_branch req w h Hdb) as [E|[E|[E|[E|[E|E]]]]]; rewrite E.
  - apply get_root_outcome.
  - apply get_todos_outcome.
  - apply post_todos_outcome.
  - apply put_todos_outcome.
  - apply delete_todos_outcome.
  - apply not_found_outcome.
Qed.

End Outcomes.

(** X4: no request changes the stored handle, the console or the state of
    the network: the listener only reads the handle. *)
Theorem listener_keeps_process_state `{Platform} (req : IncomingMessage) (w : World) :
  same_process w (served req w).
Proof.
  destruct (db w) as [h|] eqn:Hdb.
  - by destruct (listener_outcome req w h Hdb) as (_ & ? & _).
  - unfold served. rewrite (listener_without_handle req w Hdb). by repeat split.
Qed.

(** X5: only [POST], [PUT] and [DELETE] requests can change the
    collection: a request with any other method leaves it as it was. *)
Theorem other_methods_keep_collection `{Platform} (req : IncomingMessage) (w : World) :
  method req <> "POST" -> method req <> "PUT" -> method req <> "DELETE" ->
  todos (served req w) = todos w.
Proof.
  intros Hpost Hput Hdelete.
  destruct (listener_store req w) as [Hsame | [(c & Hm & _) | [(c & Hm & _) | (c & Hm & _)]]];
    [exact Hsame | contradiction..].
Qed.

Lemma other_methods_keep_collection_witness :
  todos (Examples.served
           (Examples.request "PATCH" ("/todos?id=" +:+ Examples.id5) Examples.completed_true)
           Examples.world)
  = todos Examples.world.
Proof.
  apply (other_methods_keep_collection (H := Sample.platform)); discriminate.
Defined.

(** ** Frames of the writing routes *)

Section Frames.

Context `{Platform}.

Lemma or_else_truthy (a : option val) (b : val) :
  truthy b = true -> truthy (or_else a b) = true.
Proof.
  intros Hb. unfold or_else. destruct a as [v|]; [|exact Hb].
  by destruct (truthy v) eqn:Hv.
Qed.

(** What [POST /todos] can insert. *)
Lemma post_todos_inserted (c : Collection) (req : IncomingMessage) (w : World) :
  todos (snd (post_todos c req w)) = todos w
  \/ (todos w !! next_oid w = None
      /\ exists title,
           todos (snd (post_todos c req w))
           = <[next_oid w := new_todo title (VDate (clock w + body_time req))]> (todos w)).
Proof.
  run.
  destruct (JSON_parse (string_or (body_text req) "{}")) as [data|e]; simpl; [|by left].
  destruct (todos w !! next_oid w) eqn:Hfree;
    destruct data; simpl; rewrite ?Hfree; simpl; eauto.
Qed.

Lemma served_post (req : IncomingMessage) (w : World) :
  method req = "POST" ->
  todos (served req w) = todos w
  \/ exists c, served req w = snd (post_todos c req w).
Proof.
  intros Hm.
  destruct (listener_store req w) as [Hsame | [(c & _ & Hrun) | [(c & Hm' & _) | (c & Hm' & _)]]];
    [by left | right; by exists c | congruence..].
Qed.

Lemma served_put (req : IncomingMessage) (w : World) :
  method req = "PUT" ->
  todos (served req w) = todos w
  \/ exists c, served req w = snd (put_todos c req w).
Proof.
  intros Hm.
  destruct (listener_store req w) as [Hsame | [(c & Hm' & _) | [(c & _ & Hrun) | (c & Hm' & _)]]];
    [by left | congruence | right; by exists c | congruence].
Qed.

Lemma served_delete (req : IncomingMessage) (w : World) :
  method req = "DELETE" ->
  todos (served req w) = todos w
  \/ exists c, served req w = snd (delete_todos c req w).
Proof.
  intros Hm.
  destruct (listener_store req w) as [Hsame | [(c & Hm' & _) | [(c & Hm' & _) | (c & _ & Hrun)]]];
    [by left | congruence.. | right; by exists c].
Qed.

End Frames.

(** X6: a [POST] request, whatever its body, leaves every stored item as
    it was.  An item that is stored afterwards and was not before is
    stored under the generated identifier, is not completed, carries the
    time at which the body had arrived, and has a truthy [title]. *)
Theorem post_only_adds `{Platform} (req : IncomingMessage) (w : World) :
  method req = "POST" ->
  (forall oid d, todos w !! oid = Some d -> todos (served req w) !! oid = Some d)
  /\ (forall oid d,
        todos w !! oid = None -> todos (served req w) !! oid = Some d ->
        oid = next_oid w
        /\ Js.get d "completed" = Some (VBool false)
        /\ Js.get d "createdAt" = Some (VDate (clock w + body_time req))
        /\ exists t, Js.get d "title" = Some t /\ truthy t = true).
Proof.
  intros Hm.
  destruct (served_post req w Hm) as [Hsame | [c Hrun]].
  { rewrite Hsame. split; [auto | intros; congruence]. }
  rewrite Hrun.
  destruct (post_todos_inserted c req w) as [Hsame | (Hfree & title & Hins)].
  { rewrite Hsame. split; [auto | intros; congruence]. }
  rewrite Hins. split.
  - intros oid d Hd. rewrite lookup_insert_ne by congruence. exact Hd.
  - intros oid d Hnone Hd.
    destruct (decide (next_oid w = oid)) as [<-|Hne].
    + rewrite lookup_insert_eq in Hd. injection Hd as <-. simpl.
      repeat split. eexists. split; [reflexivity|]. by apply or_else_truthy.
    + rewrite lookup_insert_ne in Hd by assumption. congruence.
Qed.

Lemma post_only_adds_witness :
  todos (Examples.served (Examples.request "POST" "/todos" Examples.title_empty)
           Examples.world) !! 5%N
  = Some Examples.milk.
Proof.
  apply (post_only_adds (H := Sample.platform)
           (Examples.request "POST" "/todos" Examples.title_empty) Examples.world eq_refl).
  reflexivity.
Defined.

(** X7: a [PUT] request, whatever its body, neither creates nor removes
    an item: the stored identifiers are the same afterwards.  An item
    that reads differently afterwards is the one the [id] parameter
    denotes. *)
Theorem put_keeps_identifiers `{Platform} (req : IncomingMessage) (w : World) :
  method req = "PUT" ->
  dom (todos (served req w)) = dom (todos w)
  /\ (forall oid, todos (served req w) !! oid <> todos w !! oid ->
        exists id, searchParam req "id" = Normal (Some id)
                   /\ ObjectId_new id = Normal oid).
Proof.
  intros Hm.
  destruct (served_put req w Hm) as [Hsame | [c Hrun]].
  { rewrite Hsame. split; [reflexivity | intros oid Hne; contradiction]. }
  rewrite Hrun.
  destruct (put_todos_store c req w)
    as [Hsame | (id & target & data & d & d' & Hid & Hoid & _ & Hd & _ & Hupd)].
  { rewrite Hsame. split; [reflexivity | intros oid Hne; contradiction]. }
  rewrite Hupd. split.
  - apply dom_insert_lookup_L. by exists d.
  - intros oid Hne. exists id. split; [exact Hid|].
    destruct (decide (target = oid)) as [<-|Hother]; [exact Hoid|].
    rewrite lookup_insert_ne in Hne by assumption. contradiction.
Qed.

Lemma put_keeps_identifiers_witness :
  dom (todos (Examples.served
                (Examples.request "PUT" ("/todos?id=" +:+ Examples.id9)
                   Examples.completed_true)
                Examples.world))
  = dom (todos Examples.world).
Proof.
  apply (put_keeps_identifiers (H := Sample.platform)
           (Examples.request "PUT" ("/todos?id=" +:+ Examples.id9) Examples.completed_true)
           Examples.world eq_refl).
Defined.

(** X8: a [DELETE] request never adds or alters an item, and removes at
    most one. *)
Theorem delete_only_removes `{Platform} (req : IncomingMessage) (w : World) :
  method req = "DELETE" ->
  (forall oid d, todos (served req w) !! oid = Some d -> todos w !! oid = Some d)
  /\ (size (todos w) <= S (size (todos (served req w))))%nat.
Proof.
  intros Hm.
  destruct (served_delete req w Hm) as [Hsame | [c Hrun]].
  { rewrite Hsame. split; [auto | lia]. }
  rewrite Hrun.
  destruct (delete_todos_store c req w) as [Hsame | (id & target & _ & _ & Hdel)].
  { rewrite Hsame. split; [auto | lia]. }
  rewrite Hdel. split.
  - intros oid d Hd. destruct (decide (target = oid)) as [<-|Hne].
    + by rewrite lookup_delete_eq in Hd.
    + by rewrite lookup_delete_ne in Hd.
  - rewrite map_size_delete. destruct (todos w !! target); simpl; lia.
Qed.

Lemma delete_only_removes_witness :
  (size (todos Examples.world)
   <= S (size (todos (Examples.served
                        (Examples.request "DELETE" ("/todos?id=" +:+ Examples.id5) "")
                        Examples.world))))%nat.
Proof.
  apply (delete_only_removes (H := Sample.platform)
           (Examples.request "DELETE" ("/todos?id=" +:+ Examples.id5) "")
           Examples.world eq_refl).
Defined.

(** ** Edge cases of the writing routes *)

(** [DELETE /todos?id=xyz] on the sample platform. *)
Lemma delete_refused_id_witness :
  Examples.listener (Examples.request "DELETE" "/todos?id=xyz" "") Examples.world
  = (Normal tt,
     with_res (mkResponse (Some (400%nat, json_headers))
                 (Some (Sample.stringify
                          (VObject [("error",
                                     VString "input must be a 24 character hex string")]))))
       Examples.world).
Proof.
  apply (delete_refused_id (H := Sample.platform)
           (Examples.request "DELETE" "/todos?id=xyz" "") Examples.world (mkDb "todo_api")
           "xyz" (Sample.BSONError "input must be a 24 character hex string")
           eq_refl (conj eq_refl eq_refl) eq_refl ltac:(discriminate) eq_refl).
Defined.

(** X10: a [DELETE /todos] whose URL has no [id] parameter, or an empty
    one, is answered 400 with the message ["Missing ID"]; nothing is
    deleted and nothing else changes. *)
Theorem delete_missing_id `{Platform}
    (req : IncomingMessage) (w : World) (h : Db) (id : option string) :
  db w = Some h ->
  on_route req "DELETE" ->
  searchParam req "id" = Normal id ->
  string_truthy id = false ->
  requestListener req w
  = (Normal tt,
     with_res (mkResponse (Some (400%nat, json_headers))
                 (Some (JSON_stringify (VObject [("error", VString "Missing ID")]))))
       w).
Proof.
  intros Hdb Hroute Hid Hfalsy.
  rewrite (listener_delete req w h Hdb Hroute).
  run. rewrite Hid. simpl.
  destruct id as [id|]; simpl in *; [|reflexivity].
  apply negb_false_iff in Hfalsy. by rewrite Hfalsy.
Qed.

(** [DELETE /todos?id=], with an empty value. *)
Lemma delete_missing_id_witness :
  Examples.listener (Examples.request "DELETE" "/todos?id=" "") Examples.world
  = (Normal tt,
     with_res (mkResponse (Some (400%nat, json_headers))
                 (Some (Sample.stringify (VObject [("error", VString "Missing ID")]))))
       Examples.world).
Proof.
  apply (delete_missing_id (H := Sample.platform)
           (Examples.request "DELETE" "/todos?id=" "") Examples.world (mkDb "todo_api")
           (Some "") eq_refl (conj eq_refl eq_refl) eq_refl eq_refl).
Defined.

(** X11: a [PUT /todos?id=<id>] whose body parses but whose [id] the
    [ObjectId] constructor refuses is answered 400 with the constructor's
    message, after the body has been read; the collection is as it
    was. *)
Theorem put_refused_id `{Platform}
    (req : IncomingMessage) (w : World) (h : Db) (id : string) (data : val) (e : Exn) :
  db w = Some h ->
  on_route req "PUT" ->
  searchParam req "id" = Normal (Some id) ->
  id <> "" ->
  JSON_parse (parsed_text req) = Normal data ->
  ObjectId_new id = Throw e ->
  requestListener req w
  = (Normal tt,
     mkWorld (db w) (connect_result w) (todos w) (next_oid w)
       (clock w + body_time req) (console w)
       (mkResponse (Some (400%nat, json_headers))
          (Some (JSON_stringify (VObject [("error", VString (message e))]))))).
Proof.
  intros Hdb Hroute Hid Hne Hparse Hoid.
  rewrite (listener_put req w h Hdb Hroute).
  unfold parsed_text in Hparse. apply String.eqb_neq in Hne.
  run. rewrite Hid. simpl. rewrite Hne. simpl. rewrite Hparse. simpl.
  rewrite Hoid. reflexivity.
Qed.

Lemma put_refused_id_witness :
  Examples.listener (Examples.request "PUT" "/todos?id=xyz" Examples.completed_true)
    Examples.world
  = (Normal tt,
     with_res (mkResponse (Some (400%nat, json_headers))
                 (Some (Sample.stringify
                          (VObject [("error",
                                     VString "input must be a 24 character hex string")]))))
       (with_clock 2003 Examples.world)).
Proof.
  apply (put_refused_id (H := Sample.platform)
           (Examples.request "PUT" "/todos?id=xyz" Examples.completed_true) Examples.world
           (mkDb "todo_api") "xyz" (VObject [("completed", VBool true)])
           (Sample.BSONError "input must be a 24 character hex string")
           eq_refl (conj eq_refl eq_refl) eq_refl ltac:(discriminate) eq_refl eq_refl).
Defined.

(** X12: a [POST /todos] whose body is the JSON text [null] inserts
    nothing: reading [title] of [null] throws, the route catches the
    exception and answers 400 with its message, and no identifier is
    used up. *)
Theorem post_null_body `{Platform} (req : IncomingMessage) (w : World) (h : Db) :
  db w = Some h ->
  on_route req "POST" ->
  JSON_parse (parsed_text req) = Normal VNull ->
  requestListener req w
  = (Normal tt,
     mkWorld (db w) (connect_result w) (todos w) (next_oid w)
       (clock w + body_time req) (console w)
       (mkResponse (Some (400%nat, json_headers))
          (Some (JSON_stringify
                   (VObject
                      [("error",
                        VString "Cannot read properties of null (reading 'title')")]))))).
Proof.
  intros Hdb Hroute Hparse.
  rewrite (listener_post req w h Hdb Hroute).
  unfold parsed_text in Hparse. run. rewrite Hparse. reflexivity.
Qed.

Lemma post_null_body_witness :
  todos (Examples.served (Examples.request "POST" "/todos" "null") Examples.world)
  = todos Examples.world
  /\ head (res (Examples.served (Examples.request "POST" "/todos" "null") Examples.world))
     = Some (400%nat, json_headers).
Proof.
  unfold Examples.served, served.
  rewrite (post_null_body (H := Sample.platform)
             (Examples.request "POST" "/todos" "null") Examples.world (mkDb "todo_api")
             eq_refl (conj eq_refl eq_refl) eq_refl).
  split; reflexivity.
Defined.

(** X13: a [PUT /todos?id=<id>] whose [id] is a well-formed identifier
    that denotes no stored item is answered 200 with the JSON value
    [null]; the collection is as it was. *)
Theorem put_unknown_id_answers_null `{Platform}
    (req : IncomingMessage) (w : World) (h : Db)
    (id : string) (oid : ObjectId) (data : val) :
  db w = Some h ->
  on_route req "PUT" ->
  searchParam req "id" = Normal (Some id) ->
  id <> "" ->
  JSON_parse (parsed_text req) = Normal data ->
  ObjectId_new id = Normal oid ->
  todos w !! oid = None ->
  requestListener req w
  = (Normal tt,
     mkWorld (db w) (connect_result w) (todos w) (next_oid w)
       (clock w + body_time req) (console w)
       (mkResponse (Some (200%nat, json_headers)) (Some (JSON_stringify VNull)))).
Proof.
  intros Hdb Hroute Hid Hne Hparse Hoid Hnone.
  rewrite (listener_put req w h Hdb Hroute).
  unfold parsed_text in Hparse. apply String.eqb_neq in Hne.
  run. rewrite Hid. simpl. rewrite Hne. simpl. rewrite Hparse. simpl.
  rewrite Hoid. simpl. rewrite Hnone. reflexivity.
Qed.

Lemma put_unknown_id_answers_null_witness :
  res (Examples.served
         (Examples.request "PUT" ("/todos?id=" +:+ Examples.id9) Examples.completed_true)
         Examples.world)
  = mkResponse (Some (200%nat, json_headers)) (Some "null").
Proof.
  unfold Examples.served, served.
  rewrite (put_unknown_id_answers_null (H := Sample.platform)
             (Examples.request "PUT" ("/todos?id=" +:+ Examples.id9) Examples.completed_true)
             Examples.world (mkDb "todo_api") Examples.id9 9%N
             (VObject [("completed", VBool true)])
             eq_refl (conj eq_refl eq_refl) eq_refl ltac:(discriminate)
             eq_refl eq_refl eq_refl).
  reflexivity.
Defined.

(** X14: a [PUT /todos?id=<id>] on a stored item with a body that has no
    property of its own ([null], a number, a boolean, the empty object)
    spreads to no assignment: the item and the collection are as they
    were, and the answer is 200 with the item.  Unlike [POST], the route
    does not throw on [null]. *)
Theorem put_body_without_fields `{Platform}
    (req : IncomingMessage) (w : World) (h : Db)
    (id : string) (oid : ObjectId) (data : val) (d : object) :
  db w = Some h ->
  on_route req "PUT" ->
  searchParam req "id" = Normal (Some id) ->
  id <> "" ->
  JSON_parse (parsed_text req) = Normal data ->
  own_props data = [] ->
  ObjectId_new id = Normal oid ->
  todos w !! oid = Some d ->
  requestListener req w
  = (Normal tt,
     mkWorld (db w) (connect_result w) (todos w) (next_oid w)
       (clock w + body_time req) (console w)
       (mkResponse (Some (200%nat, json_headers))
          (Some (JSON_stringify (VObject (Mongo.document oid d)))))).
Proof.
  intros Hdb Hroute Hid Hne Hparse Hprops Hoid Hd.
  assert (Hspread : spread data = []) by (unfold spread; by rewrite Hprops).
  rewrite (put_updates req w h id oid data d) by (try assumption; by rewrite Hspread).
  rewrite Hspread. unfold overwrite. simpl. by rewrite (insert_id _ _ _ Hd).
Qed.

Lemma put_body_without_fields_witness :
  Examples.listener (Examples.request "PUT" ("/todos?id=" +:+ Examples.id5) "null")
    Examples.world
  = (Normal tt,
     with_res (mkResponse (Some (200%nat, json_headers))
                 (Some (Sample.stringify
                          (VObject (("_id", VObjectId 5%N) :: Examples.milk)))))
       (with_clock 2003 Examples.world)).
Proof.
  apply (put_body_without_fields (H := Sample.platform)
           (Examples.request "PUT" ("/todos?id=" +:+ Examples.id5) "null") Examples.world
           (mkDb "todo_api") Examples.id5 5%N VNull Examples.milk
           eq_refl (conj eq_refl eq_refl) eq_refl ltac:(discriminate)
           eq_refl eq_refl eq_refl eq_refl).
Defined.

(** ** Requests in sequence *)

Section Sequences.

Context `{Platform}.

Lemma set_same (o : object) k v : Js.get o k = Some v -> Js.set o k v = o.
Proof.
  induction o as [|[k0 v0] rest IH]; simpl; [discriminate|].
  destruct (String.eqb k0 k) eqn:E.
  - intros [= ->]. reflexivity.
  - intros Hget. by rewrite IH.
Qed.

Lemma overwrite_same (o fields : object) :
  (forall k v, In (k, v) fields -> Js.get o k = Some v) -> overwrite o fields = o.
Proof.
  induction fields as [|[k v] fields IH]; intros Hall; simpl.
  - reflexivity.
  - rewrite set_same by (apply Hall; by left).
    apply IH. intros k' v' Hin. apply Hall. by right.
Qed.

Lemma get_In_NoDup (o : object) k v :
  List.NoDup (keys o) -> In (k, v) o -> Js.get o k = Some v.
Proof.
  induction o as [|[k0 v0] rest IH]; simpl; [tauto|].
  intros Hnd [Heq | Hin].
  - injection Heq as -> ->. by rewrite String.eqb_refl.
  - inversion Hnd as [|? ? Hfresh Hrest]; subst.
    destruct (String.eqb k0 k) eqn:E.
    + apply String.eqb_eq in E. subst k0. exfalso. apply Hfresh.
      change k with (fst (k, v)). by apply in_map.
    + by apply IH.
Qed.

(** Making the assignments of a spread a second time changes nothing. *)
Lemma overwrite_twice (d : object) (data : val) :
  overwrite (overwrite d (spread data)) (spread data) = overwrite d (spread data).
Proof.
  apply overwrite_same. intros k v Hin.
  rewrite get_overwrite, overwrite_spread.
  rewrite (get_In_NoDup (spread data) k v); [reflexivity | | exact Hin].
  rewrite spread_overwrite. apply NoDup_keys_overwrite. constructor.
Qed.

End Sequences.

(** X16: [PUT] is idempotent on a stored item: serving the same
    [PUT /todos?id=<id>] (a body of top-level fields) a second time leaves
    the collection as the first left it and answers with the same
    response. *)
Theorem put_twice_same `{Platform}
    (req : IncomingMessage) (w : World) (h : Db)
    (id : string) (oid : ObjectId) (data : val) (d : object) :
  db w = Some h ->
  on_route req "PUT" ->
  searchParam req "id" = Normal (Some id) ->
  id <> "" ->
  ObjectId_new id = Normal oid ->
  JSON_parse (parsed_text req) = Normal data ->
  plain_fields (spread data) = true ->
  todos w !! oid = Some d ->
  todos (served req (served req w)) = todos (served req w)
  /\ res (served req (served req w)) = res (served req w).
Proof.
  intros Hdb Hroute Hid Hne Hoid Hparse Hplain Hd. unfold served.
  rewrite (put_updates req w h id oid data d) by assumption. simpl.
  rewrite (put_updates req _ h id oid data (overwrite d (spread data)))
    by (try assumption; try reflexivity; simpl; apply lookup_insert_eq).
  simpl. rewrite overwrite_twice, insert_insert_eq. by split.
Qed.

Lemma put_twice_same_witness :
  todos (Examples.served
           (Examples.request "PUT" ("/todos?id=" +:+ Examples.id5) Examples.completed_true)
           (Examples.served
              (Examples.request "PUT" ("/todos?id=" +:+ Examples.id5)
                 Examples.completed_true)
              Examples.world))
  = todos (Examples.served
             (Examples.request "PUT" ("/todos?id=" +:+ Examples.id5)
                Examples.completed_true)
             Examples.world).
Proof.
  apply (put_twice_same (H := Sample.platform)
           (Examples.request "PUT" ("/todos?id=" +:+ Examples.id5) Examples.completed_true)
           Examples.world (mkDb "todo_api") Examples.id5 5%N
           (VObject [("completed", VBool true)]) Examples.milk
           eq_refl (conj eq_refl eq_refl) eq_refl ltac:(discriminate)
           eq_refl eq_refl eq_refl eq_refl).
Defined.

(** X17: [DELETE] is idempotent: serving the same [DELETE /todos?id=<id>]
    a second time finds nothing to remove, leaves the collection as the
    first left it, and is answered 200 with the same confirmation. *)
Theorem delete_twice_same `{Platform}
    (req : IncomingMessage) (w : World) (h : Db) (id : string) (oid : ObjectId) :
  db w = Some h ->
  on_route req "DELETE" ->
  searchParam req "id" = Normal (Some id) ->
  id <> "" ->
  ObjectId_new id = Normal oid ->
  served req (served req w) = served req w
  /\ responded (served req (served req w)) 200
       (VObject [("message", VString "Todo deleted")]).
Proof.
  intros Hdb Hroute Hid Hne Hoid. unfold served, responded.
  rewrite (delete_removes req w h id oid) by assumption. simpl.
  rewrite (delete_removes req _ h id oid) by assumption. simpl.
  by rewrite delete_delete_eq.
Qed.

Lemma delete_twice_same_witness :
  Examples.served (Examples.request "DELETE" ("/todos?id=" +:+ Examples.id5) "")
    (Examples.served (Examples.request "DELETE" ("/todos?id=" +:+ Examples.id5) "")
       Examples.world)
  = Examples.served (Examples.request "DELETE" ("/todos?id=" +:+ Examples.id5) "")
      Examples.world.
Proof.
  apply (delete_twice_same (H := Sample.platform)
           (Examples.request "DELETE" ("/todos?id=" +:+ Examples.id5) "")
           Examples.world (mkDb "todo_api") Examples.id5 5%N
           eq_refl (conj eq_refl eq_refl) eq_refl ltac:(discriminate) eq_refl).
Defined.

(** X18: creating an item and then deleting it under the acknowledged
    identifier restores the collection: after a [POST /todos] that
    inserts, a [DELETE /todos?id=<id>] whose [id] denotes the identifier
    in the acknowledgement leaves the collection as it was before the
    [POST]. *)
Theorem post_then_delete_restores `{Platform}
    (post del : IncomingMessage) (w : World) (h : Db) (data : val) (id : string) :
  db w = Some h ->
  on_route post "POST" ->
  JSON_parse (parsed_text post) = Normal data ->
  data <> VNull ->
  todos w !! next_oid w = None ->
  on_route del "DELETE" ->
  searchParam del "id" = Normal (Some id) ->
  id <> "" ->
  ObjectId_new id = Normal (next_oid w) ->
  responded (served post w) 201 (Mongo.InsertOneResult (next_oid w))
  /\ todos (served del (served post w)) = todos w.
Proof.
  intros Hdb Hpost Hparse Hnull Hfree Hdel Hid Hne Hoid. unfold served, responded.
  rewrite (post_inserts post w h data Hdb Hpost Hparse Hnull Hfree). simpl.
  split; [reflexivity|].
  rewrite (delete_removes del _ h id (next_oid w)) by assumption. simpl.
  by apply delete_insert_id.
Qed.

Lemma post_then_delete_restores_witness :
  todos (Examples.served
           (Examples.request "DELETE" ("/todos?id=" +:+ Examples.id6) "")
           (Examples.served (Examples.request "POST" "/todos" Examples.title_eggs)
              Examples.world))
  = todos Examples.world.
Proof.
  apply (post_then_delete_restores (H := Sample.platform)
           (Examples.request "POST" "/todos" Examples.title_eggs)
           (Examples.request "DELETE" ("/todos?id=" +:+ Examples.id6) "")
           Examples.world (mkDb "todo_api") (VObject [("title", VString "Buy eggs")])
           Examples.id6
           eq_refl (conj eq_refl eq_refl) eq_refl ltac:(discriminate) eq_refl
           (conj eq_refl eq_refl) eq_refl ltac:(discriminate) eq_refl).
Defined.

(** X19: the identifier acknowledged by a [POST /todos] resolves
    afterwards: [GET /todos] lists the created item under it, and a
    [PUT /todos?id=<id>] with that identifier finds the item, overwrites
    the fields of its body on it and answers with the document, not with
    [null]. *)
Theorem created_item_resolves `{Platform}
    (post put : IncomingMessage) (w : World) (h : Db)
    (data update : val) (id : string) :
  db w = Some h ->
  on_route post "POST" ->
  JSON_parse (parsed_text post) = Normal data ->
  data <> VNull ->
  todos w !! next_oid w = None ->
  on_route put "PUT" ->
  searchParam put "id" = Normal (Some id) ->
  id <> "" ->
  ObjectId_new id = Normal (next_oid w) ->
  JSON_parse (parsed_text put) = Normal update ->
  plain_fields (spread update) = true ->
  let created := new_todo (own_title data) (VDate (clock w + body_time post)) in
  In (VObject (Mongo.document (next_oid w) created)) (stored_documents (served post w))
  /\ todos (served put (served post w))
     = <[next_oid w := overwrite created (spread update)]> (todos w)
  /\ responded (served put (served post w)) 200
       (VObject (Mongo.document (next_oid w) (overwrite created (spread update)))).
Proof.
  intros Hdb Hpost Hparse Hnull Hfree Hput Hid Hne Hoid Hupdate Hplain created.
  unfold served, responded.
  rewrite (post_inserts post w h data Hdb Hpost Hparse Hnull Hfree). simpl.
  split; [|].
  { apply stored_documents_spec. simpl. apply lookup_insert_eq. }
  rewrite (put_updates put _ h id (next_oid w) update created)
    by (try assumption; try reflexivity; simpl; apply lookup_insert_eq).
  simpl. by rewrite insert_insert_eq.
Qed.

Lemma created_item_resolves_witness :
  todos (Examples.served
           (Examples.request "PUT" ("/todos?id=" +:+ Examples.id6) Examples.completed_true)
           (Examples.served (Examples.request "POST" "/todos" Examples.title_eggs)
              Examples.world))
  = <[6%N := [("title", VString "Buy eggs"); ("completed", VBool true);
              ("createdAt", VDate 2003)]]> (todos Examples.world).
Proof.
  apply (created_item_resolves (H := Sample.platform)
           (Examples.request "POST" "/todos" Examples.title_eggs)
           (Examples.request "PUT" ("/todos?id=" +:+ Examples.id6) Examples.completed_true)
           Examples.world (mkDb "todo_api") (VObject [("title", VString "Buy eggs")])
           (VObject [("completed", VBool true)]) Examples.id6
           eq_refl (conj eq_refl eq_refl) eq_refl ltac:(discriminate) eq_refl
           (conj eq_refl eq_refl) eq_refl ltac:(discriminate) eq_refl eq_refl eq_refl).
Defined.

(** ** Connecting and starting *)

Lemma connectDB_touches (w : World) :
  todos (snd (connectDB w)) = todos w
  /\ res (snd (connectDB w)) = res w
  /\ next_oid (snd (connectDB w)) = next_oid w
  /\ length (console (snd (connectDB w))) = S (length (console w))
  /\ db (snd (connectDB w))
     = if succeeded (connect_result w) then Some (mkDb "todo_api") else db w.
Proof.
  destruct (connect_result w) as [[]|e] eqn:Hc.
  - rewrite connectDB_success by assumption. by repeat split.
  - rewrite (connectDB_failure w e) by assumption. by repeat split.
Qed.

(** X20: over any sequence of calls of [connectDB], a handle once stored
    is never cleared by a later failure: afterwards the handle is that of
    [todo_api] if some attempt succeeded and the initial one otherwise.
    Each call logs exactly one line and touches neither the collection
    nor the response. *)
Theorem connect_attempts_keep_success (outcomes : list (Completion unit)) (w : World) :
  db (connect_attempts outcomes w)
  = (if existsb succeeded outcomes then Some (mkDb "todo_api") else db w)
  /\ length (console (connect_attempts outcomes w))
     = (length outcomes + length (console w))%nat
  /\ todos (connect_attempts outcomes w) = todos w
  /\ res (connect_attempts outcomes w) = res w.
Proof.
  revert w. induction outcomes as [|r rest IH]; intros w; simpl.
  - by repeat split.
  - set (w0 := mkWorld (db w) r (todos w) (next_oid w) (clock w) (console w) (res w)).
    destruct (connectDB_touches w0) as (Htodos & Hres & _ & Hlog & Hdb).
    destruct (IH (snd (connectDB w0))) as (IHdb & IHlog & IHtodos & IHres).
    rewrite IHdb, IHlog, IHtodos, IHres, Htodos, Hres, Hlog, Hdb. simpl.
    repeat split; [|lia].
    destruct (existsb succeeded rest); destruct (succeeded r); reflexivity.
Qed.

(** X21: the module body of [server.js] reaches [server.listen] whether
    or not the connection was made: [main] completes as [listen] does.
    When [listen] succeeds the console shows the line of [connectDB] and
    then the address of the server, on the port of the environment or on
    8000 when the variable is unset or empty. *)
Theorem main_listens_regardless
    (env_port : option string) (listening : Completion unit) (w : World) :
  fst (main env_port listening w) = listening
  /\ (listening = Normal tt ->
      exists line,
        console (snd (main env_port listening w))
        = Log ("Server running on port http://localhost:" +:+ PORT env_port)
            :: line :: console w
        /\ (connect_result w = Normal tt -> line = Log "MongoDB connected")
        /\ (forall e, connect_result w = Throw e ->
              line = LogError "DB connection error:" e))
  /\ PORT None = "8000"
  /\ PORT (Some "") = "8000"
  /\ (forall p, p <> "" -> PORT (Some p) = p).
Proof.
  split; [|split; [|repeat split]].
  - unfold main. destruct (connect_result w) as [[]|e] eqn:Hc.
    + unfold mbind, M_bind. rewrite connectDB_success by assumption.
      destruct listening as [[]|e]; reflexivity.
    + unfold mbind, M_bind. rewrite (connectDB_failure w e) by assumption.
      destruct listening as [[]|e']; reflexivity.
  - intros ->. unfold main, mbind, M_bind.
    destruct (connect_result w) as [[]|e] eqn:Hc.
    + rewrite connectDB_success by assumption. simpl.
      eexists. split; [reflexivity|]. split; [reflexivity | intros e; discriminate].
    + rewrite (connectDB_failure w e) by assumption. simpl.
      eexists. split; [reflexivity|]. split; [discriminate | by intros e' [= ->]].
  - intros p Hp. simpl. by apply string_or_nonempty.
Qed.

(** A start-up on port 3000 whose connection fails. *)
Lemma main_listens_regardless_witness :
  fst (main (Some "3000") (Normal tt) Examples.offline) = Normal tt
  /\ exists line,
       console (snd (main (Some "3000") (Normal tt) Examples.offline))
       = [Log "Server running on port http://localhost:3000"; line]
       /\ line = LogError "DB connection error:" Examples.unreachable.
Proof.
  destruct (main_listens_regardless (Some "3000") (Normal tt) Examples.offline)
    as (Hrun & Hlog & _).
  split; [exact Hrun|].
  destruct (Hlog eq_refl) as (line & Hconsole & _ & Hfailed).
  exists line. split; [exact Hconsole | by apply Hfailed].
Defined.

(** X22: what a failed connection means for the requests.  In a process
    that starts without a handle, after a start-up whose connection
    failed (and whose [listen] succeeded) the listener throws a
    [TypeError] on every request, before routing and before the body is
    read, and writes no response. *)
Theorem requests_after_failed_start `{Platform}
    (env_port : option string) (w : World) (req : IncomingMessage) (e : Exn) :
  fresh_process w ->
  connect_result w = Throw e ->
  fst (main env_port (Normal tt) w) = Normal tt
  /\ requestListener req (snd (main env_port (Normal tt) w))
     = (Throw (TypeError "Cannot read properties of undefined (reading 'collection')"),
        snd (main env_port (Normal tt) w))
  /\ res (snd (main env_port (Normal tt) w)) = res w
  /\ todos (served req (snd (main env_port (Normal tt) w))) = todos w.
Proof.
  intros Hfresh Hc. unfold served, main, mbind, M_bind.
  rewrite (connectDB_failure w e) by assumption. simpl.
  rewrite listener_without_handle by assumption.
  by repeat split.
Qed.

(** [GET /] after a start-up that could not reach the database. *)
Lemma requests_after_failed_start_witness :
  fst (Examples.listener (Examples.request "GET" "/" "")
         (snd (main None (Normal tt) Examples.offline)))
  = Throw (TypeError "Cannot read properties of undefined (reading 'collection')").
Proof.
  destruct (requests_after_failed_start (H := Sample.platform) None Examples.offline
              (Examples.request "GET" "/" "") Examples.unreachable eq_refl eq_refl)
    as (_ & Hthrow & _).
  unfold Examples.listener. by rewrite Hthrow.
Defined.

(** X23: when the [URL] constructor refuses the request target or the
    [Host] header, [PUT /todos] and [DELETE /todos] catch its exception
    and answer 400 with its message; the body is not read and nothing is
    written to the collection. *)
Theorem invalid_url_answered_400 `{Platform}
    (req : IncomingMessage) (w : World) (h : Db) (e : Exn) :
  db w = Some h ->
  on_route req "PUT" \/ on_route req "DELETE" ->
  URL_searchParams (url req) (base req) = Throw e ->
  requestListener req w
  = (Normal tt,
     with_res (mkResponse (Some (400%nat, json_headers))
                 (Some (JSON_stringify (VObject [("error", VString (message e))]))))
       w).
Proof.
  intros Hdb [Hroute | Hroute] Hurl.
  - rewrite (listener_put req w h Hdb Hroute). run. unfold searchParam.
    by rewrite Hurl.
  - rewrite (listener_delete req w h Hdb Hroute). run. unfold searchParam.
    by rewrite Hurl.
Qed.

(** [DELETE /todos?id=...5] with the header [Host: bad host]. *)
Lemma invalid_url_answered_400_witness :
  requestListener (H := strict_platform)
    (mkRequest "DELETE" ("/todos?id=" +:+ Examples.id5) (Some "bad host") [])
    Examples.world
  = (Normal tt,
     with_res (mkResponse (Some (400%nat, json_headers))
                 (Some (Sample.stringify (VObject [("error", VString "Invalid URL")]))))
       Examples.world).
Proof.
  apply (invalid_url_answered_400 (H := strict_platform)
           (mkRequest "DELETE" ("/todos?id=" +:+ Examples.id5) (Some "bad host") [])
           Examples.world (mkDb "todo_api") (TypeError "Invalid URL") eq_refl).
  - right. split; reflexivity.
  - reflexivity.
Defined.
